(** * paramspy: a shallow embedding of the scan pipeline and its cache

    The development follows the four Python modules of the repository:

    - [paramspy/core/cache.py]  : module [Cache]      (class ParamCache)
    - [core/fetcher.py]         : module [Fetcher]    (fetch_wayback_urls)
    - [utils/decorators.py]     : module [Decorators] (retry_on_failure)
    - [paramspy/cli.py]         : module [Cli]        (_load_builtin_params, scan)
    - [paramspy/core/parser.py] is not part of the sources at hand; module
      [Parser] models its extractor from the specification.

    The listing of the sources writes Python's double-underscore names with
    single underscores ([_init_], [_file_], [_name_]); they are read as the
    names they stand for.

    Modelling conventions.
    - A Python [str] is a [string]; the string primitives used by the code
      ([lower], [strip], [replace], [endswith]) are written out for ASCII
      text: [Str.lower] and [Str.strip] know the ASCII letters and the ASCII
      white space only, so on a string with other characters (a no-break
      space, an accented capital) they may differ from Python's.
    - A Python value produced by a JSON decoder is a [pyval].
    - An exception is a value of [exn]; a computation that may raise returns a
      [result].  Only subclasses of [Exception] are modelled.
    - The console of the model holds the messages the code writes with
      [console.print] and [print].  The progress bar that rich's [track]
      draws while the loop of the fetch runs is not among them.
    - Effects (the SQLite table, the console, the clock, the archive server)
      are threaded through a state-and-error monad [M] over a [world];
      what the outside decides (clock readings, server answers, library
      functions of the Python distribution) is collected in an [env]. *)

From Stdlib Require Import ZArith QArith Qround Lqa String Ascii List Bool Lia DecimalString.
From stdpp Require Import base gmap sets list strings.

Local Open Scope string_scope.
Local Open Scope Z_scope.

(* ===================================================================== *)
(** * Python values, exceptions, results *)
(* ===================================================================== *)

(** Values that [json.loads] / [response.json()] can produce.  Numbers are
    kept as integers: the code only ever asks a number for its truth value
    or its [len], and floats answer both like integers do. *)
#[local] Unset Elimination Schemes.
Inductive pyval :=
| PyNone
| PyBool (b : bool)
| PyInt (n : Z)
| PyStr (s : string)
| PyList (items : list pyval)
| PyDict (fields : list (string * pyval)).
#[local] Set Elimination Schemes.

(** A list of Python strings as a value. *)
Definition py_strs (l : list string) : pyval := PyList (PyStr <$> l).

(** Exception classes met in the code.  [TyperExit] is [typer.Exit], the
    exception the command-line runtime turns into a process exit status.
    [JSONDecodeError] and [UnicodeDecodeError] are both subclasses of
    [ValueError] and neither is a subclass of the other. *)
Inductive exn :=
| ConnectError
| HTTPStatusError (status_code : Z)
| TimeoutError
| FileNotFoundError
| JSONDecodeError
| UnicodeDecodeError
| ValueError
| TypeError
| AttributeError
| IndexError
| KeyError
| TyperExit (code : Z)
| OtherException (name : string).

Inductive result (A : Type) :=
| Ok (a : A)
| Raise (e : exn).
Arguments Ok {A} a.
Arguments Raise {A} e.

(** [bool(v)] *)
Definition py_truthy (v : pyval) : bool :=
  match v with
  | PyNone => false
  | PyBool b => b
  | PyInt n => negb (n =? 0)
  | PyStr s => negb (String.eqb s "")
  | PyList l => match l with [] => false | _ => true end
  | PyDict d => match d with [] => false | _ => true end
  end.

(** Keys of a decoded JSON object: a later duplicate overwrites an earlier
    one, so the dict holds each key once. *)
Definition py_dict_keys (d : list (string * pyval)) : list string :=
  List.nodup string_dec (d.*1).

(** [len(v)] *)
Definition py_len (v : pyval) : result Z :=
  match v with
  | PyStr s => Ok (Z.of_nat (String.length s))
  | PyList l => Ok (Z.of_nat (List.length l))
  | PyDict d => Ok (Z.of_nat (List.length (py_dict_keys d)))
  | PyNone | PyBool _ | PyInt _ => Raise TypeError
  end.

(** The characters of a string, each as a one-character string. *)
Fixpoint py_chars (s : string) : list pyval :=
  match s with
  | EmptyString => []
  | String c s' => PyStr (String c EmptyString) :: py_chars s'
  end.

(** The items [for x in v[1:]] runs through. Slicing a dict raises. *)
Definition py_iter_from1 (v : pyval) : result (list pyval) :=
  match v with
  | PyStr s => Ok (List.tl (py_chars s))
  | PyList l => Ok (List.tl l)
  | PyDict _ | PyNone | PyBool _ | PyInt _ => Raise TypeError
  end.

(** The items [for x in v] runs through. *)
Definition py_iter (v : pyval) : result (list pyval) :=
  match v with
  | PyStr s => Ok (py_chars s)
  | PyList l => Ok l
  | PyDict d => Ok (PyStr <$> py_dict_keys d)
  | PyNone | PyBool _ | PyInt _ => Raise TypeError
  end.

(** [v[0]] *)
Definition py_getitem0 (v : pyval) : result pyval :=
  match v with
  | PyList (x :: _) => Ok x
  | PyList [] => Raise IndexError
  | PyStr (String c _) => Ok (PyStr (String c EmptyString))
  | PyStr EmptyString => Raise IndexError
  | PyDict _ => Raise KeyError
  | PyNone | PyBool _ | PyInt _ => Raise TypeError
  end.

(* ===================================================================== *)
(** * String primitives *)
(* ===================================================================== *)

Module Str.

(** [s.endswith(suffix)]: some tail of [s] is [suffix]. *)
Fixpoint endswith (s suffix : string) : bool :=
  if String.eqb s suffix then true
  else match s with
       | EmptyString => false
       | String _ s' => endswith s' suffix
       end.

Definition lower_char (c : ascii) : ascii :=
  let n := nat_of_ascii c in
  if ((65 <=? n) && (n <=? 90))%nat then ascii_of_nat (n + 32) else c.

(** [s.lower()] *)
Fixpoint lower (s : string) : string :=
  match s with
  | EmptyString => EmptyString
  | String c s' => String (lower_char c) (lower s')
  end.

(** [c.isspace()] for ASCII: TAB, LF, VT, FF, CR, FS, GS, RS, US, SPACE. *)
Definition is_space (c : ascii) : bool :=
  let n := nat_of_ascii c in
  (((9 <=? n) && (n <=? 13)) || ((28 <=? n) && (n <=? 32)))%nat.

Fixpoint lstrip (s : string) : string :=
  match s with
  | EmptyString => EmptyString
  | String c s' => if is_space c then lstrip s' else s
  end.

(** Right strip, by a right fold: a character is kept as soon as what
    follows it is not entirely white space, or it is not white space. *)
Fixpoint rstrip (s : string) : string :=
  match s with
  | EmptyString => EmptyString
  | String c s' =>
      match rstrip s' with
      | EmptyString => if is_space c then EmptyString else String c EmptyString
      | r => String c r
      end
  end.

(** [s.strip()] *)
Definition strip (s : string) : string := rstrip (lstrip s).

(** [s.replace(old, new)] for a non-empty [old]: left to right, without
    overlap.  [skip] counts the characters of a match still to be dropped. *)
Fixpoint replace_from (old new : string) (skip : nat) (s : string) : string :=
  match s with
  | EmptyString => EmptyString
  | String c s' =>
      match skip with
      | S k => replace_from old new k s'
      | O =>
          if String.prefix old s
          then new ++ replace_from old new (String.length old - 1) s'
          else String c (replace_from old new 0 s')
      end
  end.

Definition replace (old new s : string) : string := replace_from old new 0 s.

End Str.

(* ===================================================================== *)
(** * The outside world *)
(* ===================================================================== *)

(** A row of the SQLite table
    [params (domain TEXT PRIMARY KEY, params_json TEXT NOT NULL,
             timestamp INTEGER NOT NULL)]. *)
Record params_row := {
  row_domain : string;
  row_params_json : string;
  row_timestamp : Z
}.

(** Lines written to the terminal with [console.print] or [print], one
    constructor per message of the code. *)
Inductive event :=
| CacheUsing (domain remaining : string)
    (* [CACHE] Using cached results for {domain}. Expires in {remaining}. *)
| CacheExpired (domain : string)
    (* [CACHE] Cache for {domain} expired. Refetching data. *)
| FetchConnectionFailed (domain : string)
    (* [ERROR] Connection failed while fetching {domain} Wayback data. *)
| FetchHTTPError (status_code : Z) (domain : string)
    (* [ERROR] HTTP error {code} while fetching {domain} Wayback data. *)
| FetchUnexpected (e : exn)
    (* [ERROR] An unexpected error occurred during fetching: {e} *)
| BuiltinNotFound
    (* Error: Built-in parameter list not found. *)
| BuiltinParseFailed
    (* Error: Failed to parse built-in parameter list. *)
| Scanning (domain : string)
    (* -> Scanning {domain}... *)
| NoUrlsFound (domain : string)
    (* Error: No URLs found for {domain} in Wayback Machine. *)
| FoundUrls (n : nat)
    (* Found {n} unique URLs. *)
| NoHighSignal
    (* ! No high-signal parameters found after filtering. *)
| JsonOutput (domain : string) (parameters : pyval)
    (* json.dumps of the domain and its parameters, on stdout *)
| FinalListHeader (n : Z)
    (* Final List ({n}) (Ready to pipe): *)
| ParamLine (param : pyval).
    (* print(param) *)

(** What [await client.get(WAYBACK_CDX_API, params=params)] comes back with:
    the call raises, or a response arrives with its status code and the
    outcome of decoding its body with [response.json()]. *)
Inductive http_result :=
| RequestFails (e : exn)
| Response (status_code : Z) (body : result pyval).

(** What [open(DATA_PATH, 'r')] and the [f.read()] inside [json.load(f)]
    find: no file; a file that [open] refuses with [e]; a file that opens
    and whose bytes do not decode in the encoding of the text stream, so
    that reading it raises [UnicodeDecodeError]; a file read as [text]. *)
Inductive file_state :=
| FileMissing
| FileUnreadable (e : exn)
| FileUndecodable
| FileText (text : string).

(** Everything the program does not decide itself. *)
Record env := {
  (** [time.time()]: the reading obtained by the k-th call, in seconds *)
  clock : nat -> Q;
  (** [time.strftime('%Y-%m-%d %H:%M:%S', time.localtime(t))] *)
  strftime_local : Z -> string;
  (** [json.dumps] on a list of strings, and [json.loads] ([None]: it raises
      [JSONDecodeError]) *)
  json_dumps : list string -> string;
  json_loads : string -> option pyval;
  (** the archive index, by the [url] parameter of the query *)
  cdx_server : string -> http_result;
  (** [urlparse(url).netloc], which raises [ValueError] on some inputs *)
  urlparse_netloc : string -> result string;
  (** the packaged file [data/builtin_params.json] *)
  builtin_file : file_state;
  (** [paramspy.core.parser], whose source is not at hand *)
  extract_params_from_url : string -> gset string;
  merge_and_filter_all_params : list string -> pyval -> list string
}.

(** The mutable state: the table behind [param_cache], the number of clock
    readings taken, the terminal, and the queries sent to the archive. *)
Record world := {
  db : list params_row;
  ticks : nat;
  console : list event;
  requests : list string
}.

(* ===================================================================== *)
(** * The state-and-exception monad *)
(* ===================================================================== *)

Definition M (A : Type) : Type := world -> result A * world.

Definition ret {A} (a : A) : M A := fun w => (Ok a, w).

Definition bind {A B} (m : M A) (k : A -> M B) : M B :=
  fun w =>
    match m w with
    | (Ok a, w') => k a w'
    | (Raise e, w') => (Raise e, w')
    end.

Definition raise {A} (e : exn) : M A := fun w => (Raise e, w).

(** [try: m  except <the classes handler answers for>: handler e] *)
Definition try_except {A} (m : M A) (handler : exn -> option (M A)) : M A :=
  fun w =>
    match m w with
    | (Ok a, w') => (Ok a, w')
    | (Raise e, w') =>
        match handler e with
        | Some h => h w'
        | None => (Raise e, w')
        end
    end.

Notation "'let!' x ':=' m 'in' k" := (bind m (fun x => k))
  (at level 10, x name, m at level 100, k at level 200).
Notation "m ';!' k" := (bind m (fun _ => k))
  (at level 100, k at level 200, right associativity).

Definition read_db : M (list params_row) := fun w => (Ok (db w), w).

Definition write_db (t : list params_row) : M unit :=
  fun w => (Ok tt, {| db := t; ticks := ticks w; console := console w;
                      requests := requests w |}).

Definition print (e : event) : M unit :=
  fun w => (Ok tt, {| db := db w; ticks := ticks w; console := console w ++ [e];
                      requests := requests w |}).

Definition time_time (E : env) : M Q :=
  fun w => (Ok (clock E (ticks w)),
            {| db := db w; ticks := S (ticks w); console := console w;
               requests := requests w |}).

Definition http_get (E : env) (url_param : string) : M http_result :=
  fun w => (Ok (cdx_server E url_param),
            {| db := db w; ticks := ticks w; console := console w;
               requests := requests w ++ [url_param] |}).


Fixpoint mapM {A B} (f : A -> M B) (l : list A) : M (list B) :=
  match l with
  | [] => ret []
  | x :: l' => let! y := f x in let! ys := mapM f l' in ret (y :: ys)
  end.

(* ===================================================================== *)
(** * paramspy/core/cache.py *)
(* ===================================================================== *)

Module Cache.

(** Cache validity in seconds (30 days). *)
Definition CACHE_TTL : Z := 30 * 24 * 60 * 60.

(** [a < b] on clock readings. *)
Definition Qltb (a b : Q) : bool := negb (Qle_bool b a).

(** [int(x)] on a float: truncation towards zero. *)
Definition py_int (x : Q) : Z := Z.quot (Qnum x) (Zpos (Qden x)).

(** [str(n)] on an int. *)
Definition py_str_int (n : Z) : string := NilZero.string_of_int (Z.to_int n).

(** ** The SQL statements, on the table *)

(** [SELECT ... FROM params WHERE domain = ?] followed by [fetchone()] *)
Definition select_by_domain (domain : string) (t : list params_row) : option params_row :=
  List.find (fun r => String.eqb (row_domain r) domain) t.

(** [DELETE FROM params WHERE domain = ?] *)
Definition delete_by_domain (domain : string) (t : list params_row) : list params_row :=
  List.filter (fun r => negb (String.eqb (row_domain r) domain)) t.

(** [INSERT OR REPLACE INTO params ... VALUES (?, ?, ?)]: the rows in conflict
    on the primary key go, the new row comes. *)
Definition insert_or_replace (r : params_row) (t : list params_row) : list params_row :=
  delete_by_domain (row_domain r) t ++ [r].

(** [SELECT COUNT( * ) FROM params] *)
Definition count_rows (t : list params_row) : Z := Z.of_nat (List.length t).

(** The primary-key constraint on [domain]. *)
Definition primary_key_ok (t : list params_row) : Prop :=
  NoDup (row_domain <$> t).

(** ** The methods of [ParamCache] *)

(** [_setup_db] on a fresh database file: the table is created empty. *)
Definition _setup_db : list params_row := [].

Definition _time_remaining (E : env) (timestamp : Z) : M string :=
  let! now := time_time E in
  let remaining_seconds := (inject_Z (timestamp + CACHE_TTL) - now)%Q in
  if Qle_bool remaining_seconds 0 then ret "Expired"
  else
    let days := Qfloor (remaining_seconds / inject_Z (24 * 3600)) in
    let hours :=
      Qfloor ((remaining_seconds - inject_Z (days * (24 * 3600))) / inject_Z 3600) in
    if 0 <? days then ret (py_str_int days ++ " days, " ++ py_str_int hours ++ " hours")
    else if 0 <? hours then ret (py_str_int hours ++ " hours")
    else ret "Less than 1 hour".

Definition delete (domain : string) : M unit :=
  let! t := read_db in
  write_db (delete_by_domain domain t).

(** [get] returns a Python value: [PyNone] when the entry is absent or
    expired, else whatever [json.loads] makes of the stored text. *)
Definition get (E : env) (domain : string) : M pyval :=
  let! t := read_db in
  match select_by_domain domain t with
  | Some row =>
      let! now := time_time E in
      if Qltb (now - inject_Z (row_timestamp row)) (inject_Z CACHE_TTL) then
        let! remaining := _time_remaining E (row_timestamp row) in
        print (CacheUsing domain remaining) ;!
        match json_loads E (row_params_json row) with
        | Some v => ret v
        | None => raise JSONDecodeError
        end
      else
        delete domain ;!
        print (CacheExpired domain) ;!
        ret PyNone
  | None => ret PyNone
  end.

Definition set (E : env) (domain : string) (params : list string) : M unit :=
  let params_json := json_dumps E params in
  let! now := time_time E in
  let timestamp := py_int now in
  let! t := read_db in
  write_db (insert_or_replace
              {| row_domain := domain; row_params_json := params_json;
                 row_timestamp := timestamp |} t).

Definition clear_all : M Z :=
  let! t := read_db in
  let count := count_rows t in
  write_db [] ;!
  ret count.

Record status_entry := {
  st_domain : string;
  st_cached_since : string;
  st_expires_in : string
}.

Definition get_status (E : env) : M (list status_entry) :=
  let! t := read_db in
  mapM (fun r =>
          let! expires_in := _time_remaining E (row_timestamp r) in
          ret {| st_domain := row_domain r;
                 st_cached_since := strftime_local E (row_timestamp r);
                 st_expires_in := expires_in |}) t.

End Cache.

(* ===================================================================== *)
(** * core/fetcher.py *)
(* ===================================================================== *)

Module Fetcher.

(** Max URLs to fetch. *)
Definition WAYBACK_LIMIT : Z := 500000.

(** The [url] entry of the query parameters: [f".{domain}/"].  The other
    entries are constants and do not depend on the call. *)
Definition query_url (domain : string) : string := "." ++ domain ++ "/".

(** [response.raise_for_status()]: anything but a 2xx status raises
    [HTTPStatusError]. *)
Definition raise_for_status (status_code : Z) : result unit :=
  if (200 <=? status_code) && (status_code <=? 299) then Ok tt
  else Raise (HTTPStatusError status_code).

(** The sanity check of the loop:
    [parsed_url.netloc.endswith(domain) or parsed_url.netloc == domain]. *)
Definition belongs_to (netloc domain : string) : bool :=
  Str.endswith netloc domain || String.eqb netloc domain.

(** One turn of the loop up to its test: [url = row[0]], then
    [urlparse(url)], then the check.  [Ok (Some url)]: the turn adds [url];
    [Ok None]: it adds nothing; [Raise e]: it raises.
    A [url] that is not a string never gets through: [urlparse] decodes a
    truthy non-string (which raises [AttributeError]) and turns a falsy one
    into a bytes result, whose [netloc.endswith(domain)] raises
    [TypeError]. *)
Definition row_accepts (E : env) (domain : string) (row : pyval) : result (option string) :=
  match py_getitem0 row with
  | Raise e => Raise e
  | Ok (PyStr url) =>
      match urlparse_netloc E url with
      | Raise e => Raise e
      | Ok netloc => if belongs_to netloc domain then Ok (Some url) else Ok None
      end
  | Ok v => Raise (if py_truthy v then AttributeError else TypeError)
  end.

(** [for row in track(data[1:], ...)]: the loop runs over [rows] with the
    set [urls] built so far, and stops at the first turn that raises; the
    set keeps what the earlier turns added.  [track] hands the rows on in
    order; the progress bar it draws on the terminal meanwhile is left out
    of the model. *)
Fixpoint process_rows (E : env) (domain : string) (rows : list pyval)
         (urls : gset string) : gset string * option exn :=
  match rows with
  | [] => (urls, None)
  | row :: rest =>
      match row_accepts E domain row with
      | Raise e => (urls, Some e)
      | Ok (Some url) => process_rows E domain rest ({[ url ]} ∪ urls)
      | Ok None => process_rows E domain rest urls
      end
  end.

(** How the [try] block ends. *)
Inductive block_end :=
| Returned            (* the [return urls] inside the block *)
| FellThrough         (* the loop ran to its end *)
| Raised (e : exn).

(** The [try] block from the answer to the request on: the value of the
    local variable [urls] when the block is left, and how it is left. *)
Definition run_block (E : env) (domain : string) (r : http_result)
  : gset string * block_end :=
  let urls : gset string := ∅ in
  match r with
  | RequestFails e => (urls, Raised e)
  | Response status_code body =>
      match raise_for_status status_code with
      | Raise e => (urls, Raised e)
      | Ok _ =>
          match body with
          | Raise e => (urls, Raised e)
          | Ok data =>
              if negb (py_truthy data) then (urls, Returned)
              else
                match py_len data with
                | Raise e => (urls, Raised e)
                | Ok n =>
                    if n <=? 1 then (urls, Returned)
                    else
                      match py_iter_from1 data with
                      | Raise e => (urls, Raised e)
                      | Ok rows =>
                          let (urls', failure) := process_rows E domain rows urls in
                          (urls', match failure with
                                  | Some e => Raised e
                                  | None => FellThrough
                                  end)
                      end
                end
          end
      end
  end.

Definition try_block (E : env) (domain : string) : M (gset string * block_end) :=
  let! r := http_get E (query_url domain) in
  ret (run_block E domain r).

Definition fetch_wayback_urls (E : env) (domain : string) : M (gset string) :=
  let! block := try_block E domain in
  let urls := block.1 in
  match block.2 with
  | Raised ConnectError => print (FetchConnectionFailed domain) ;! ret urls
  | Raised (HTTPStatusError status_code) =>
      print (FetchHTTPError status_code domain) ;! ret urls
  | Raised e => print (FetchUnexpected e) ;! ret urls
  | Returned | FellThrough => ret urls
  end.

(** The URLs the check lets through among the rows that come before the
    first row on which a turn of the loop raises. *)
Fixpoint accepted_before_failure (E : env) (domain : string) (rows : list pyval)
  : list string :=
  match rows with
  | [] => []
  | row :: rest =>
      match row_accepts E domain row with
      | Raise _ => []
      | Ok (Some url) => url :: accepted_before_failure E domain rest
      | Ok None => accepted_before_failure E domain rest
      end
  end.

End Fetcher.

(* ===================================================================== *)
(** * [urllib.parse]: the network location of a URL *)
(* ===================================================================== *)

(** [urlsplit] as CPython writes it, as far as [netloc] goes and for ASCII
    text: leading control characters and spaces are stripped, TAB, CR and LF
    are removed, a scheme is split off, and after a leading [//] the network
    location runs to the first of [/], [?], [#].  A location with one square
    bracket but not the other raises [ValueError].  With both brackets,
    CPython checks that the text between the first [[] and the [\]] after it
    is an IPv6 or IPvFuture literal and raises [ValueError] otherwise; of
    that check the model keeps that such a literal holds a colon or starts
    with [v], and accepts any host that does. *)
Module Urllib.

Definition is_alpha (c : ascii) : bool :=
  let n := nat_of_ascii c in
  (((65 <=? n) && (n <=? 90)) || ((97 <=? n) && (n <=? 122)))%nat.

Definition is_digit (c : ascii) : bool :=
  let n := nat_of_ascii c in ((48 <=? n) && (n <=? 57))%nat.

(** [scheme_chars]: letters, digits and [+-.] *)
Definition is_scheme_char (c : ascii) : bool :=
  is_alpha c || is_digit c || Ascii.eqb c "+" || Ascii.eqb c "-" || Ascii.eqb c ".".

Definition is_c0_or_space (c : ascii) : bool := (nat_of_ascii c <=? 32)%nat.

Fixpoint lstrip_c0 (s : string) : string :=
  match s with
  | EmptyString => EmptyString
  | String c s' => if is_c0_or_space c then lstrip_c0 s' else s
  end.

Definition is_unsafe (c : ascii) : bool :=
  let n := nat_of_ascii c in ((n =? 9) || (n =? 10) || (n =? 13))%nat.

Fixpoint remove_unsafe (s : string) : string :=
  match s with
  | EmptyString => EmptyString
  | String c s' => if is_unsafe c then remove_unsafe s' else String c (remove_unsafe s')
  end.

Fixpoint contains (c : ascii) (s : string) : bool :=
  match s with
  | EmptyString => false
  | String c' s' => Ascii.eqb c c' || contains c s'
  end.

(** The URL after its scheme: [url[i+1:]] when [url[:i]] is a scheme that
    the colon at [i > 0] ends, else [url] itself.  [first] tells whether the
    character at hand is [url[0]]. *)
Fixpoint after_scheme (first : bool) (whole s : string) : string :=
  match s with
  | EmptyString => whole
  | String c s' =>
      if Ascii.eqb c ":" then (if first then whole else s')
      else if (if first then is_alpha c else is_scheme_char c)
           then after_scheme false whole s'
           else whole
  end.

(** [_splitnetloc(url, 2)]: up to the first delimiter. *)
Fixpoint until_delim (s : string) : string :=
  match s with
  | EmptyString => EmptyString
  | String c s' =>
      if Ascii.eqb c "/" || Ascii.eqb c "?" || Ascii.eqb c "#" then EmptyString
      else String c (until_delim s')
  end.

Fixpoint after_first (d : ascii) (s : string) : string :=
  match s with
  | EmptyString => EmptyString
  | String c s' => if Ascii.eqb c d then s' else after_first d s'
  end.

Fixpoint before_first (d : ascii) (s : string) : string :=
  match s with
  | EmptyString => EmptyString
  | String c s' => if Ascii.eqb c d then EmptyString else String c (before_first d s')
  end.

(** [netloc.partition('[')[2].partition(']')[0]] *)
Definition bracketed_host (loc : string) : string :=
  before_first "]" (after_first "[" loc).

(** What is kept of [_check_bracketed_host]. *)
Definition may_be_ip_literal (host : string) : bool :=
  contains ":" host || String.prefix "v" host.

Definition netloc (url : string) : result string :=
  let url := remove_unsafe (lstrip_c0 url) in
  let url := after_scheme true url url in
  match url with
  | String "/" (String "/" rest) =>
      let loc := until_delim rest in
      if xorb (contains "[" loc) (contains "]" loc) then Raise ValueError
      else if contains "[" loc && negb (may_be_ip_literal (bracketed_host loc))
           then Raise ValueError
           else Ok loc
  | _ => Ok ""
  end.

End Urllib.

(* ===================================================================== *)
(** * utils/decorators.py *)
(* ===================================================================== *)

Module Decorators.

(** What the wrapper does besides calling the operation. *)
Inductive retry_event :=
| Warned (attempt : Z) (e : exn)
    (* Warning: Attempt {attempt + 1}/{max_retries} failed ({e}). Retrying in {delay}s... *)
| Slept (seconds : Z)
    (* time.sleep(delay) *)
| GaveUp (max_retries : Z).
    (* Error: Function failed after {max_retries} attempts. *)

(** The default of [exceptions]: [(HTTPStatusError, ConnectError, TimeoutError)]. *)
Definition default_exceptions (e : exn) : bool :=
  match e with
  | HTTPStatusError _ | ConnectError | TimeoutError => true
  | _ => false
  end.

Definition default_max_retries : Z := 3.
Definition default_delay : Z := 2.

Section Wrapper.

(** The wrapped operation works on a state of its own and returns a [T] or
    raises. *)
Context {St T : Type}.

(** The state of a run of the wrapper: the state of the operation, the number
    of calls made to it, and the trace of warnings and sleeps. *)
Record run_state := {
  op_state : St;
  calls : nat;
  trace : list retry_event
}.

Variable max_retries : Z.
Variable delay : Z.
Variable exceptions : exn -> bool.
Variable func : St -> result T * St.

Definition call_func (s : run_state) : result T * run_state :=
  let (r, st') := func (op_state s) in
  (r, {| op_state := st'; calls := S (calls s); trace := trace s |}).

Definition emit (ev : retry_event) (s : run_state) : run_state :=
  {| op_state := op_state s; calls := calls s; trace := trace s ++ [ev] |}.

(** [for attempt in range(max_retries)], from [attempt] on, with [fuel]
    turns left.  The wrapper returns [Some v] for the operation's value [v]
    and [None] for the [return None] after the loop. *)
Fixpoint attempts (fuel : nat) (attempt : Z) (s : run_state)
  : result (option T) * run_state :=
  match fuel with
  | O => (Ok None, s)
  | S fuel' =>
      match call_func s with
      | (Ok v, s1) => (Ok (Some v), s1)
      | (Raise e, s1) =>
          if exceptions e then
            if attempt <? max_retries - 1 then
              attempts fuel' (attempt + 1)
                       (emit (Slept delay) (emit (Warned attempt e) s1))
            else (Raise e, emit (GaveUp max_retries) s1)
          else (Raise e, s1)
      end
  end.

Definition wrapper (s : run_state) : result (option T) * run_state :=
  attempts (Z.to_nat max_retries) 0 s.

(** The state of the operation after [k] calls, and the outcome of the call
    that comes next. *)
Fixpoint state_after (k : nat) (st : St) : St :=
  match k with
  | O => st
  | S k' => state_after k' (func st).2
  end.

Definition outcome_at (k : nat) (st : St) : result T := (func (state_after k st)).1.

(** The call that comes after [k] calls raises an exception of a class the
    wrapper retries on. *)
Definition retried_at (k : nat) (st : St) : Prop :=
  exists e, outcome_at k st = Raise e /\ exceptions e = true.

End Wrapper.

(** [retry_on_failure(max_retries, delay, exceptions)(func)]; an argument
    left out is [None] here and takes its default. *)
Definition retry_on_failure {St T : Type} (max_retries delay : option Z)
           (exceptions : option (exn -> bool)) (func : St -> result T * St)
  : @run_state St -> result (option T) * @run_state St :=
  wrapper (default default_max_retries max_retries)
          (default default_delay delay)
          (default default_exceptions exceptions)
          func.

(** The seconds slept along a trace. *)
Fixpoint total_sleep (tr : list retry_event) : Z :=
  match tr with
  | [] => 0
  | Slept seconds :: tr' => seconds + total_sleep tr'
  | _ :: tr' => total_sleep tr'
  end.

End Decorators.

(* ===================================================================== *)
(** * paramspy/core/parser.py *)
(* ===================================================================== *)

Module Parser.

Fixpoint before_char (d : ascii) (s : string) : string :=
  match s with
  | EmptyString => EmptyString
  | String c s' => if Ascii.eqb c d then EmptyString else String c (before_char d s')
  end.

Fixpoint after_char (d : ascii) (s : string) : option string :=
  match s with
  | EmptyString => None
  | String c s' => if Ascii.eqb c d then Some s' else after_char d s'
  end.

(** The pieces of [s] between occurrences of [d]. *)
Fixpoint split_on (d : ascii) (s : string) : list string :=
  match s with
  | EmptyString => [EmptyString]
  | String c s' =>
      if Ascii.eqb c d then EmptyString :: split_on d s'
      else match split_on d s' with
           | piece :: pieces => String c piece :: pieces
           | [] => [String c EmptyString]
           end
  end.

Definition hex_value (c : ascii) : option nat :=
  let n := nat_of_ascii c in
  if ((48 <=? n) && (n <=? 57))%nat then Some (n - 48)%nat
  else if ((65 <=? n) && (n <=? 70))%nat then Some (n - 55)%nat
  else if ((97 <=? n) && (n <=? 102))%nat then Some (n - 87)%nat
  else None.

(** Modelled from the spec: percent-decoding of a key or a value; an escape
    that is not two hexadecimal digits stays as it is written. *)
Fixpoint percent_decode (s : string) : string :=
  match s with
  | EmptyString => EmptyString
  | String c s' =>
      match s' with
      | String h (String l rest) =>
          match Ascii.eqb c "%", hex_value h, hex_value l with
          | true, Some hi, Some lo =>
              String (ascii_of_nat (16 * hi + lo)) (percent_decode rest)
          | _, _, _ => String c (percent_decode s')
          end
      | _ => String c (percent_decode s')
      end
  end.

(** Modelled from the spec: the query component of a URL, which is what
    follows the first [?], up to the fragment; it is absent when the URL,
    fragment apart, has no [?]. *)
Definition query_component (url : string) : option string :=
  after_char "?" (before_char "#" url).

(** Modelled from the spec: a piece of the query is a key=value pair when it
    holds an [=]; the key is what comes before the first one. *)
Definition pair_of_piece (piece : string) : option (string * string) :=
  match after_char "=" piece with
  | Some value => Some (percent_decode (before_char "=" piece), percent_decode value)
  | None => None
  end.

(** Modelled from the spec: the key=value pairs of the query, separated by
    [&], in order, repeats included. *)
Definition query_pairs (url : string) : list (string * string) :=
  match query_component url with
  | Some query => omap pair_of_piece (split_on "&" query)
  | None => []
  end.

(** Modelled from the spec: [extract_params_from_url] of
    paramspy/core/parser.py, which is not among the sources.  The spec has
    it parse the query component of the URL into key=value pairs separated
    by [&], with percent-decoding, and return the set of the distinct keys;
    a URL without a query component gives the empty set. *)
Definition extract_params_from_url (url : string) : gset string :=
  list_to_set ((query_pairs url).*1).

End Parser.

(* ===================================================================== *)
(** * Queries written from pairs *)
(* ===================================================================== *)

(** The way a list of key=value pairs is written into a URL (percent-encoding
    as in RFC 3986, pairs joined by [&]).  It is not code of the program: the
    statements about the extractor are made on the URLs it writes. *)
Module QueryText.











End QueryText.

(* ===================================================================== *)
(** * paramspy/cli.py *)
(* ===================================================================== *)

Module Cli.

(** [json.load(f)] on the text of the file. *)
Definition json_load (E : env) (text : string) : M pyval :=
  match json_loads E text with
  | Some v => ret v
  | None => raise JSONDecodeError
  end.

Definition _load_builtin_params (E : env) : M pyval :=
  try_except
    (match builtin_file E with
     | FileMissing => raise FileNotFoundError
     | FileUnreadable e => raise e
     | FileUndecodable => raise UnicodeDecodeError
     | FileText text => json_load E text
     end)
    (fun e =>
       match e with
       | FileNotFoundError => Some (print BuiltinNotFound ;! ret (PyList []))
       | JSONDecodeError => Some (print BuiltinParseFailed ;! ret (PyList []))
       | _ => None
       end).

(** [domain.lower().strip().replace('http://', '').replace('https://', '')] *)
Definition normalize (domain : string) : string :=
  Str.replace "https://" "" (Str.replace "http://" "" (Str.strip (Str.lower domain))).

Fixpoint print_params (items : list pyval) : M unit :=
  match items with
  | [] => ret tt
  | param :: rest => print (ParamLine param) ;! print_params rest
  end.

(** [output == "json"] *)
Definition output_is_json (output : option string) : bool :=
  match output with
  | Some o => String.eqb o "json"
  | None => false
  end.

(** The plain list on stdout: the header with [len(final_params)], then one
    line per parameter. *)
Definition print_plain (final_params : pyval) : M unit :=
  match py_len final_params, py_iter final_params with
  | Ok n, Ok items => print (FinalListHeader n) ;! print_params items
  | Raise e, _ | _, Raise e => raise e
  end.

(** Step 6 of [scan]. *)
Definition output_results (domain : string) (output : option string)
           (final_params : pyval) : M unit :=
  if negb (py_truthy final_params) then print NoHighSignal
  else if output_is_json output then print (JsonOutput domain final_params)
  else print_plain final_params.

Definition scan (E : env) (domain : string) (aggressive : bool)
           (output : option string) : M unit :=
  let domain := normalize domain in
  (* 1. Check Cache *)
  let! cached_params := Cache.get E domain in
  let! final_params :=
    if py_truthy cached_params then ret cached_params
    else
      (* 2. Fetch URLs *)
      print (Scanning domain) ;!
      let! urls := Fetcher.fetch_wayback_urls E domain in
      if bool_decide (urls = ∅) then
        print (NoUrlsFound domain) ;!
        raise (TyperExit 1)
      else
        print (FoundUrls (size urls)) ;!
        (* 3. Extract and Clean Params *)
        let extracted_set : gset string :=
          ⋃ (extract_params_from_url E <$> elements urls) in
        (* 4. Merge with Built-in List *)
        let! builtin_params := _load_builtin_params E in
        let final_params :=
          merge_and_filter_all_params E (elements extracted_set) builtin_params in
        (* 5. Store in Cache *)
        Cache.set E domain final_params ;!
        ret (py_strs final_params)
  in
  (* 6. Output Results *)
  output_results domain output final_params.



(** An exception that reaches the runtime and is not a requested exit. *)
Definition unhandled_failure (r : result unit) : bool :=
  match r with
  | Ok _ | Raise (TyperExit _) => false
  | Raise _ => true
  end.

End Cli.

(* ===================================================================== *)
(** * A JSON codec for lists of strings, and a reference environment *)
(* ===================================================================== *)

(** The text [json.dumps] writes for a list of strings of printable ASCII
    characters, and a reader for such texts.  The reader accepts the arrays
    of strings the writer produces and rejects everything else. *)
Module Json.

(** The double quote and the backslash. *)
Definition dquote : ascii := ascii_of_nat 34.
Definition backslash : ascii := ascii_of_nat 92.

Definition escape_char (c : ascii) : string :=
  if Ascii.eqb c dquote then String backslash (String dquote EmptyString)
  else if Ascii.eqb c backslash then String backslash (String backslash EmptyString)
  else String c EmptyString.

Fixpoint escape (s : string) : string :=
  match s with
  | EmptyString => EmptyString
  | String c s' => escape_char c ++ escape s'
  end.

Definition quote (s : string) : string :=
  String dquote (escape s ++ String dquote EmptyString).

(** The items after the first, each behind its separator. *)
Fixpoint more_items (l : list string) : string :=
  match l with
  | [] => EmptyString
  | x :: rest => ", " ++ quote x ++ more_items rest
  end.

Definition items (l : list string) : string :=
  match l with
  | [] => EmptyString
  | x :: rest => quote x ++ more_items rest
  end.

Definition dumps (l : list string) : string := "[" ++ items l ++ "]".

Inductive reader_state :=
| Start        (* nothing read *)
| Opened       (* after the opening bracket *)
| InString     (* inside a string *)
| Escaped      (* after a backslash inside a string *)
| AfterString  (* after the closing quote of an item *)
| AfterComma   (* after the comma that follows an item *)
| Closed.      (* after the closing bracket *)

(** [done]: the items read so far; [cur]: the characters of the item at hand. *)
Fixpoint read (st : reader_state) (done : list string) (cur : string)
         (s : string) : option (list string) :=
  match s with
  | EmptyString => match st with Closed => Some done | _ => None end
  | String c s' =>
      match st with
      | Start => if Ascii.eqb c "[" then read Opened done cur s' else None
      | Opened =>
          if Ascii.eqb c "]" then read Closed done cur s'
          else if Ascii.eqb c dquote then read InString done EmptyString s'
          else None
      | InString =>
          if Ascii.eqb c dquote then read AfterString (done ++ [cur]) EmptyString s'
          else if Ascii.eqb c backslash then read Escaped done cur s'
          else read InString done (cur ++ String c EmptyString) s'
      | Escaped =>
          if Ascii.eqb c dquote || Ascii.eqb c backslash
          then read InString done (cur ++ String c EmptyString) s'
          else None
      | AfterString =>
          if Ascii.eqb c "]" then read Closed done cur s'
          else if Ascii.eqb c "," then read AfterComma done cur s'
          else None
      | AfterComma =>
          if Ascii.eqb c " " then read AfterComma done cur s'
          else if Ascii.eqb c dquote then read InString done EmptyString s'
          else None
      | Closed => None
      end
  end.

Definition loads (text : string) : option pyval :=
  py_strs <$> read Start [] EmptyString text.

End Json.

(** An environment with the codec above, CPython's [urlsplit], the extractor
    of [Parser], a clock that stands still at [now], a given answer of the
    archive and a given wordlist file.  The merge keeps the extracted names
    that the wordlist (when it is a list) also holds. *)
Definition reference_merge (extracted : list string) (builtin : pyval) : list string :=
  match builtin with
  | PyList l =>
      List.filter (fun p => existsb (fun v => match v with
                                             | PyStr s => String.eqb s p
                                             | _ => false
                                             end) l) extracted
  | _ => []
  end.

Definition reference_env (now : Q) (answer : http_result) (file : file_state) : env :=
  {| clock := fun _ => now;
     strftime_local := fun t => Cache.py_str_int t;
     json_dumps := Json.dumps;
     json_loads := Json.loads;
     cdx_server := fun _ => answer;
     urlparse_netloc := Urllib.netloc;
     builtin_file := file;
     extract_params_from_url := Parser.extract_params_from_url;
     merge_and_filter_all_params := reference_merge |}.

Definition empty_world : world :=
  {| db := []; ticks := 0; console := []; requests := [] |}.

Definition world_with (t : list params_row) : world :=
  {| db := t; ticks := 0; console := []; requests := [] |}.

(* ===================================================================== *)
(** * Sample data *)
(* ===================================================================== *)

Definition tesla_row (timestamp : Z) : params_row :=
  {| row_domain := "tesla.com"; row_params_json := Json.dumps ["id"; "q"];
     row_timestamp := timestamp |}.

Definition five_rows : list params_row :=
  (fun d => {| row_domain := d; row_params_json := Json.dumps ["id"];
               row_timestamp := 1700000000 |})
    <$> ["a.com"; "b.com"; "c.com"; "d.com"; "e.com"].

Definition cdx_header : pyval := PyList [PyStr "original"].

Definition cdx_row (url : string) : pyval := PyList [PyStr url].

Definition archive_env (rows : list pyval) : env :=
  reference_env 0 (Response 200 (Ok (PyList (cdx_header :: rows)))) FileMissing.

(** An operation that counts its calls: it raises [e] on the first [failures]
    calls and returns the number of the call afterwards. *)
Definition flaky (failures : nat) (e : exn) (n : nat) : result nat * nat :=
  (if (n <? failures)%nat then Raise e else Ok (S n), S n).

Definition fresh_run : @Decorators.run_state nat :=
  {| Decorators.op_state := 0%nat; Decorators.calls := 0; Decorators.trace := [] |}.

Definition cached_row (params : list string) : params_row :=
  {| row_domain := "example.com"; row_params_json := Json.dumps params;
     row_timestamp := 1700000000 |}.


(* ===================================================================== *)
(** * paramspy/cli.py: the cache commands *)
(* ===================================================================== *)

(** [cache status] and [cache clear].  The lines these commands print are
    returned as the value of the command, in the order they are printed. *)
Module CacheCommands.

Inductive line :=
| CacheIsEmpty
    (* Cache is empty. *)
| StatusHeader (n : nat)
    (* Cache Status ({len(status)} domains): *)
| StatusItem (domain cached_since expires_in : string)
    (* {domain}: Cached since {cached_since} (Expires in {expires_in}) *)
| EntryCleared (domain : string)
    (* Cache entry for {domain} cleared. *)
| AllCleared (count : Z).
    (* Cleared {count} entries from the cache. *)

Definition cache_status (E : env) : M (list line) :=
  let! status := Cache.get_status E in
  match status with
  | [] => ret [CacheIsEmpty]
  | _ =>
      ret (StatusHeader (List.length status)
           :: ((fun item => StatusItem (Cache.st_domain item)
                                       (Cache.st_cached_since item)
                                       (Cache.st_expires_in item)) <$> status))
  end.

(** [if domain:] holds for an argument that is given and not empty. *)
Definition cache_clear (domain : option string) : M (list line) :=
  match domain with
  | Some d =>
      if negb (String.eqb d "") then
        Cache.delete d ;!
        ret [EntryCleared d]
      else
        let! count := Cache.clear_all in
        ret [AllCleared count]
  | None =>
      let! count := Cache.clear_all in
      ret [AllCleared count]
  end.

(** The domain a status line is about. *)
Definition line_domain (l : line) : option string :=
  match l with
  | StatusItem domain _ _ => Some domain
  | _ => None
  end.

End CacheCommands.

(* ===================================================================== *)
(** * Auxiliary notions for the further properties *)
(* ===================================================================== *)

(** The last character of a string. *)
Fixpoint last_char (s : string) : option ascii :=
  match s with
  | EmptyString => None
  | String c EmptyString => Some c
  | String _ s' => last_char s'
  end.

(** The seconds left to an entry stamped [timestamp] at the reading [now]. *)
Definition remaining (timestamp : Z) (now : Q) : Q :=
  (inject_Z (timestamp + Cache.CACHE_TTL) - now)%Q.

(** What the wrapper makes of the outcome of a call. *)
Definition passed_on {T : Type} (r : result T) : result (option T) :=
  match r with
  | Ok v => Ok (Some v)
  | Raise e => Raise e
  end.

(** A string without upper-case letters. *)
Definition lowered (s : string) : Prop := Str.lower s = s.

(** A string of ASCII characters only (codes below 128). *)
Fixpoint ascii_text (s : string) : bool :=
  match s with
  | EmptyString => true
  | String c s' => (nat_of_ascii c <? 128)%nat && ascii_text s'
  end.


(* ===================================================================== *)
(** * More sample data *)
(* ===================================================================== *)

(** An environment without archive and without wordlist, at the reading [now]. *)
Definition offline_env (now : Q) : env :=
  reference_env now (RequestFails ConnectError) FileMissing.

(** An archive that answers with two URLs of [example.com], and a wordlist
    that knows [id]. *)
Definition example_env (now : Q) : env :=
  reference_env now
    (Response 200 (Ok (PyList [cdx_header;
                               cdx_row "https://example.com/a?id=1";
                               cdx_row "https://api.example.com/b?zz=2"])))
    (FileText (Json.dumps ["id"; "page"])).



Definition stale_env : env :=
  reference_env 1800000000 (Response 200 (Ok (PyList [cdx_header]))) FileMissing.


(** The archive knows two URLs of the domain, and the bytes of the packaged
    wordlist do not decode. *)
Definition undecodable_env : env :=
  reference_env 1700000100
    (Response 200 (Ok (PyList [cdx_header; cdx_row "https://example.com/a?id=1";
                               cdx_row "https://api.example.com/b?zz=2"])))
    FileUndecodable.


(* ===================================================================== *)
(** * Properties *)
(* ===================================================================== *)

(** ** String primitives *)

Lemma endswith_unfold (s suffix : string) :
  Str.endswith s suffix =
  if String.eqb s suffix then true
  else match s with
       | EmptyString => false
       | String _ s' => Str.endswith s' suffix
       end.
Proof. destruct s; reflexivity. Qed.

Lemma endswith_app (p s : string) : Str.endswith (p ++ s) s = true.
Proof.
  induction p as [|c p IH]; rewrite endswith_unfold.
  - change ("" ++ s) with s. now rewrite String.eqb_refl.
  - change (String c p ++ s) with (String c (p ++ s)).
    destruct (String.eqb (String c (p ++ s)) s); [reflexivity | exact IH].
Qed.

Lemma endswith_inv (s suffix : string) :
  Str.endswith s suffix = true -> exists p, s = p ++ suffix.
Proof.
  induction s as [|c s IH]; rewrite endswith_unfold.
  - destruct (String.eqb_spec "" suffix) as [<-|]; [|discriminate].
    intros _. now exists "".
  - destruct (String.eqb_spec (String c s) suffix) as [<-|_].
    + intros _. now exists "".
    + intros H. destruct (IH H) as [p ->]. now exists (String c p).
Qed.

Example lower_ex : Str.lower "  HTTPS://Tesla.COM " = "  https://tesla.com ".
Proof. reflexivity. Qed.
Example strip_ex : Str.strip "  tesla.com  " = "tesla.com".
Proof. reflexivity. Qed.
Example replace_ex : Str.replace "http://" "" "http://a.http://b" = "a.b".
Proof. reflexivity. Qed.
Example endswith_ex : Str.endswith "api.tesla.com" "tesla.com" = true.
Proof. reflexivity. Qed.

(** ** The cache *)

Lemma Qltb_true (a b : Q) : Cache.Qltb a b = true <-> (a < b)%Q.
Proof.
  unfold Cache.Qltb. rewrite negb_true_iff, <- not_true_iff_false, Qle_bool_iff.
  split; [apply Qnot_le_lt | apply Qlt_not_le].
Qed.

Lemma Qltb_false (a b : Q) : Cache.Qltb a b = false <-> (b <= a)%Q.
Proof.
  unfold Cache.Qltb. now rewrite negb_false_iff, Qle_bool_iff.
Qed.

Lemma select_delete_by_domain (domain : string) (t : list params_row) :
  Cache.select_by_domain domain (Cache.delete_by_domain domain t) = None.
Proof.
  unfold Cache.select_by_domain, Cache.delete_by_domain.
  induction t as [|r t IH]; simpl; [reflexivity|].
  destruct (String.eqb (row_domain r) domain) eqn:Hr; simpl; [exact IH|].
  now rewrite Hr.
Qed.

Lemma select_by_domain_Some (domain : string) (t : list params_row) (r : params_row) :
  Cache.select_by_domain domain t = Some r -> row_domain r = domain /\ In r t.
Proof.
  unfold Cache.select_by_domain. intros H.
  destruct (List.find_some _ _ H) as [Hin Heq].
  split; [now apply String.eqb_eq | exact Hin].
Qed.

Lemma primary_key_delete (domain : string) (t : list params_row) :
  Cache.primary_key_ok t -> Cache.primary_key_ok (Cache.delete_by_domain domain t).
Proof.
  unfold Cache.primary_key_ok, Cache.delete_by_domain.
  induction t as [|r t IH]; [trivial|].
  rewrite fmap_cons. intros Hnd. apply NoDup_cons in Hnd as [Hnotin Hnd].
  simpl. destruct (negb (String.eqb (row_domain r) domain)); [|now apply IH].
  rewrite fmap_cons. apply NoDup_cons. split; [|now apply IH].
  intros Hin. apply Hnotin.
  apply list_elem_of_fmap in Hin as (r' & -> & Hr').
  apply list_elem_of_fmap. exists r'. split; [reflexivity|].
  apply list_elem_of_In. apply list_elem_of_In in Hr'.
  now apply List.filter_In in Hr' as [? _].
Qed.

Lemma domain_not_in_delete (domain : string) (t : list params_row) :
  domain ∉ row_domain <$> Cache.delete_by_domain domain t.
Proof.
  intros Hin. apply list_elem_of_fmap in Hin as (r & Hd & Hr).
  apply list_elem_of_In, List.filter_In in Hr as [_ Hr].
  apply negb_true_iff, String.eqb_neq in Hr. congruence.
Qed.

Lemma primary_key_insert (r : params_row) (t : list params_row) :
  Cache.primary_key_ok t -> Cache.primary_key_ok (Cache.insert_or_replace r t).
Proof.
  intros Hpk. unfold Cache.insert_or_replace, Cache.primary_key_ok.
  rewrite fmap_app. apply NoDup_app. split; [|split].
  - now apply primary_key_delete.
  - intros d Hd Hin. apply list_elem_of_singleton in Hin. subst d.
    now apply domain_not_in_delete in Hd.
  - apply NoDup_singleton.
Qed.

Lemma filter_insert_or_replace (r : params_row) (t : list params_row) :
  List.filter (fun r' => String.eqb (row_domain r') (row_domain r))
              (Cache.insert_or_replace r t) = [r].
Proof.
  unfold Cache.insert_or_replace, Cache.delete_by_domain.
  rewrite List.filter_app. simpl. rewrite String.eqb_refl.
  induction t as [|r0 t IH]; simpl; [reflexivity|].
  destruct (String.eqb (row_domain r0) (row_domain r)) eqn:H0; simpl;
    [|rewrite H0]; exact IH.
Qed.

Lemma select_insert_or_replace (r : params_row) (t : list params_row) :
  Cache.select_by_domain (row_domain r) (Cache.insert_or_replace r t) = Some r.
Proof.
  unfold Cache.insert_or_replace, Cache.delete_by_domain, Cache.select_by_domain.
  induction t as [|r0 t IH]; simpl.
  - now rewrite String.eqb_refl.
  - destruct (String.eqb (row_domain r0) (row_domain r)) eqn:H0; simpl;
      [|rewrite H0]; exact IH.
Qed.

Lemma mapM_db {A B} (f : A -> M B) (l : list A) (w : world) :
  (forall x w0, db (f x w0).2 = db w0) -> db (mapM f l w).2 = db w.
Proof.
  intros Hf. revert w. induction l as [|x l IH]; intros w; simpl; [reflexivity|].
  unfold bind. specialize (Hf x w).
  destruct (f x w) as [[y|e] w1]; simpl in *; [|exact Hf].
  specialize (IH w1). destruct (mapM f l w1) as [[ys|e] w2]; simpl in *; congruence.
Qed.


Lemma py_int_floor (x : Q) : (0 <= x)%Q -> Cache.py_int x = Qfloor x.
Proof.
  destruct x as [n d]. unfold Qle, Cache.py_int, Qfloor. simpl.
  intros Hn. apply Z.quot_div_nonneg; lia.
Qed.

Lemma py_int_bounds (x : Q) :
  (0 <= x)%Q ->
  (inject_Z (Cache.py_int x) <= x)%Q /\ (x < inject_Z (Cache.py_int x) + 1)%Q.
Proof.
  intros Hx. rewrite (py_int_floor x Hx). split; [apply Qfloor_le|].
  pose proof (Qlt_floor x) as H. rewrite inject_Z_plus in H. exact H.
Qed.

Section CacheFacts.

Variable E : env.

(** [json.loads] undoes [json.dumps] on lists of strings. *)
Hypothesis json_roundtrip :
  forall l : list string, json_loads E (json_dumps E l) = Some (py_strs l).

(** The three outcomes of [get], by the row found and the clock reading. *)
Lemma get_fresh (domain : string) (row : params_row) (v : pyval) (w : world) :
  Cache.select_by_domain domain (db w) = Some row ->
  (clock E (ticks w) - inject_Z (row_timestamp row) < inject_Z Cache.CACHE_TTL)%Q ->
  json_loads E (row_params_json row) = Some v ->
  exists w', Cache.get E domain w = (Ok v, w') /\ db w' = db w.
Proof.
  intros Hsel Hlt Hjs. apply Qltb_true in Hlt.
  unfold Cache.get, bind, read_db, time_time. simpl. rewrite Hsel. simpl.
  rewrite Hlt. unfold Cache._time_remaining, bind, time_time. simpl.
  repeat match goal with
         | |- context [if ?b then _ else _] => destruct b
         end; unfold ret, print; simpl; rewrite Hjs; eexists; split; reflexivity.
Qed.

Lemma get_stale (domain : string) (row : params_row) (w : world) :
  Cache.select_by_domain domain (db w) = Some row ->
  (inject_Z Cache.CACHE_TTL <= clock E (ticks w) - inject_Z (row_timestamp row))%Q ->
  exists w', Cache.get E domain w = (Ok PyNone, w')
             /\ db w' = Cache.delete_by_domain domain (db w).
Proof.
  intros Hsel Hge. apply Qltb_false in Hge.
  unfold Cache.get, bind, read_db, time_time. simpl. rewrite Hsel. simpl.
  rewrite Hge. simpl. eexists; split; reflexivity.
Qed.

Lemma get_missing (domain : string) (w : world) :
  Cache.select_by_domain domain (db w) = None ->
  Cache.get E domain w = (Ok PyNone, w).
Proof.
  intros Hsel. unfold Cache.get, bind, read_db. simpl. now rewrite Hsel.
Qed.

Lemma get_db (domain : string) (w : world) :
  db (Cache.get E domain w).2 = db w
  \/ db (Cache.get E domain w).2 = Cache.delete_by_domain domain (db w).
Proof.
  unfold Cache.get, bind, read_db, time_time. simpl.
  destruct (Cache.select_by_domain domain (db w)) as [row|]; simpl; [|now left].
  destruct (Cache.Qltb _ _); simpl; [left|now right].
  unfold Cache._time_remaining, bind, time_time. simpl.
  repeat match goal with
         | |- context [if ?b then _ else _] => destruct b
         end; unfold ret, print; simpl;
    destruct (json_loads E (row_params_json row)); reflexivity.
Qed.

Lemma time_remaining_db (timestamp : Z) (w : world) :
  db (Cache._time_remaining E timestamp w).2 = db w.
Proof.
  unfold Cache._time_remaining, bind, time_time. simpl.
  repeat match goal with
         | |- context [if ?b then _ else _] => destruct b
         end; reflexivity.
Qed.

Lemma get_status_db (w : world) : db (Cache.get_status E w).2 = db w.
Proof.
  unfold Cache.get_status, bind, read_db. simpl.
  apply mapM_db. intros r w0. unfold bind.
  pose proof (time_remaining_db (row_timestamp r) w0) as H.
  destruct (Cache._time_remaining E (row_timestamp r) w0) as [[x|e] w1]; exact H.
Qed.

(** C4. For a domain whose stored entry was created at [T] with list [L],
    [get] at a clock reading [t] with [t - T < TTL] returns [L] and leaves the
    table alone; with [t - T >= TTL] it returns [None] and the entry is gone
    from the table afterwards (the other rows stay); for a domain without an
    entry it returns [None].  The TTL is 30 days, 2592000 seconds. *)
Theorem get_respects_ttl (domain : string) (L : list string) (T : Z) (w : world) :
  let t := clock E (ticks w) in
  Cache.CACHE_TTL = 2592000
  /\ (Cache.select_by_domain domain (db w)
      = Some {| row_domain := domain; row_params_json := json_dumps E L;
                row_timestamp := T |} ->
      ((t - inject_Z T < inject_Z Cache.CACHE_TTL)%Q ->
       exists w', Cache.get E domain w = (Ok (py_strs L), w') /\ db w' = db w)
      /\
      ((inject_Z Cache.CACHE_TTL <= t - inject_Z T)%Q ->
       exists w', Cache.get E domain w = (Ok PyNone, w')
                  /\ db w' = Cache.delete_by_domain domain (db w)
                  /\ Cache.select_by_domain domain (db w') = None))
  /\ (Cache.select_by_domain domain (db w) = None ->
      Cache.get E domain w = (Ok PyNone, w)).
Proof.
  intros t. split; [reflexivity|]. split.
  - intros Hsel. split; intros Ht.
    + apply (get_fresh domain _ (py_strs L) w Hsel); [exact Ht|].
      simpl. apply json_roundtrip.
    + destruct (get_stale domain _ w Hsel Ht) as (w' & Hget & Hdb).
      exists w'. split; [exact Hget|]. split; [exact Hdb|].
      rewrite Hdb. apply select_delete_by_domain.
  - apply get_missing.
Qed.

(** C6. The table holds at most one row per domain: this holds of the table
    as created, and every method of the cache preserves it.  [set] leaves
    exactly one row for its domain, the new one: it carries the new list and,
    as timestamp, the clock reading of the [set] in whole seconds; a [get]
    that follows within the TTL returns the new list. *)
Theorem one_entry_per_domain :
  Cache.primary_key_ok Cache._setup_db
  /\ (forall w : world, Cache.primary_key_ok (db w) ->
        (forall d, Cache.primary_key_ok (db (Cache.get E d w).2))
        /\ (forall d l, Cache.primary_key_ok (db (Cache.set E d l w).2))
        /\ (forall d, Cache.primary_key_ok (db (Cache.delete d w).2))
        /\ Cache.primary_key_ok (db (Cache.clear_all w).2)
        /\ Cache.primary_key_ok (db (Cache.get_status E w).2))
  /\ (forall (w : world) (d : string) (l : list string),
        let new_row := {| row_domain := d; row_params_json := json_dumps E l;
                          row_timestamp := Cache.py_int (clock E (ticks w)) |} in
        exists w1,
          Cache.set E d l w = (Ok tt, w1)
          /\ List.filter (fun r => String.eqb (row_domain r) d) (db w1) = [new_row]
          /\ ((clock E (ticks w1) - inject_Z (row_timestamp new_row)
               < inject_Z Cache.CACHE_TTL)%Q ->
              exists w2, Cache.get E d w1 = (Ok (py_strs l), w2) /\ db w2 = db w1)).
Proof.
  split; [apply NoDup_nil_2|]. split.
  - intros w Hpk. repeat split.
    + intros d. destruct (get_db d w) as [-> | ->];
        [exact Hpk | now apply primary_key_delete].
    + intros d l. now apply primary_key_insert.
    + intros d. now apply primary_key_delete.
    + apply NoDup_nil_2.
    + now rewrite get_status_db.
  - intros w d l new_row. exists (Cache.set E d l w).2.
    split; [reflexivity|]. split.
    + apply (filter_insert_or_replace new_row).
    + intros Hlt. eapply get_fresh.
      * apply (select_insert_or_replace new_row).
      * exact Hlt.
      * apply json_roundtrip.
Qed.

(** C7. On a table of n rows [clear_all] returns n and leaves the table
    empty, and the status enumeration that follows is empty; on a table of
    five rows it returns 5. *)
Theorem clear_all_counts (w : world) :
  (exists w', Cache.clear_all w = (Ok (Z.of_nat (List.length (db w))), w')
              /\ db w' = []
              /\ Cache.get_status E w' = (Ok [], w'))
  /\ (List.length (db w) = 5%nat -> (Cache.clear_all w).1 = Ok 5).
Proof.
  split.
  - exists (Cache.clear_all w).2. repeat split.
  - intros H5. unfold Cache.clear_all, bind, read_db, Cache.count_rows. simpl.
    now rewrite H5.
Qed.

(** X4. An entry written by [set] at the clock reading [t0] is returned by a
    [get] whose reading is at most [t0 + TTL - 1], and is treated as absent,
    and deleted, by a [get] whose reading is [t0 + TTL] or later. *)
Lemma set_then_get_margin (domain : string) (l : list string) (w : world) :
  let t0 := clock E (ticks w) in
  let w1 := (Cache.set E domain l w).2 in
  let t1 := clock E (ticks w1) in
  (0 <= t0)%Q ->
  ((t1 <= t0 + inject_Z Cache.CACHE_TTL - 1)%Q ->
   exists w2, Cache.get E domain w1 = (Ok (py_strs l), w2) /\ db w2 = db w1)
  /\ ((t0 + inject_Z Cache.CACHE_TTL <= t1)%Q ->
      exists w2, Cache.get E domain w1 = (Ok PyNone, w2)
                 /\ Cache.select_by_domain domain (db w2) = None).
Proof.
  intros t0 w1 t1 Ht0.
  destruct (py_int_bounds t0 Ht0) as [Hlo Hhi].
  set (new_row := {| row_domain := domain; row_params_json := json_dumps E l;
                     row_timestamp := Cache.py_int t0 |}).
  assert (Hsel : Cache.select_by_domain domain (db w1) = Some new_row)
    by apply (select_insert_or_replace new_row).
  split; intros Ht1.
  - apply (get_fresh domain new_row (py_strs l) w1 Hsel); [|apply json_roundtrip].
    cbn [row_timestamp new_row]. fold t1. lra.
  - destruct (get_stale domain new_row w1 Hsel) as (w2 & Hget & Hdb).
    + cbn [row_timestamp new_row]. fold t1. lra.
    + exists w2. split; [exact Hget|]. rewrite Hdb. apply select_delete_by_domain.
Qed.
End CacheFacts.


(** ** The reference JSON codec reads back what it writes *)

Lemma str_app_cons (c : ascii) (a b : string) : String c a ++ b = String c (a ++ b).
Proof. reflexivity. Qed.

Lemma str_app_nil_r (s : string) : s ++ "" = s.
Proof.
  induction s as [|c s IH]; [reflexivity | now rewrite str_app_cons, IH].
Qed.

Lemma str_app_assoc (a b c : string) : (a ++ b) ++ c = a ++ (b ++ c).
Proof.
  induction a as [|x a IH]; [reflexivity | now rewrite !str_app_cons, IH].
Qed.

Lemma read_escape (x : string) :
  forall (done : list string) (cur rest : string),
    Json.read Json.InString done cur (Json.escape x ++ String Json.dquote rest)
    = Json.read Json.AfterString (done ++ [cur ++ x]) "" rest.
Proof.
  induction x as [|c x IH]; intros done cur rest.
  - rewrite str_app_nil_r. reflexivity.
  - replace (cur ++ String c x) with ((cur ++ String c "") ++ x)
      by (now rewrite str_app_assoc).
    rewrite <- IH. cbn [Json.escape]. unfold Json.escape_char.
    destruct (Ascii.eqb_spec c Json.dquote) as [->|Hq].
    + reflexivity.
    + destruct (Ascii.eqb_spec c Json.backslash) as [->|Hb].
      * reflexivity.
      * apply Ascii.eqb_neq in Hq, Hb.
        rewrite str_app_assoc, str_app_cons.
        change ("" ++ Json.escape x ++ String Json.dquote rest)
          with (Json.escape x ++ String Json.dquote rest).
        cbn [Json.read]. now rewrite Hq, Hb.
Qed.

Lemma str_app_nil_l (s : string) : "" ++ s = s.
Proof. reflexivity. Qed.

Ltac flatten_strings :=
  repeat (rewrite str_app_assoc || rewrite str_app_cons || rewrite str_app_nil_l).

Lemma read_more_items (l : list string) :
  forall done : list string,
    Json.read Json.AfterString done "" (Json.more_items l ++ "]") = Some (done ++ l)%list.
Proof.
  induction l as [|y l IH]; intros done.
  - rewrite app_nil_r. reflexivity.
  - cbn [Json.more_items]. unfold Json.quote. flatten_strings.
    transitivity (Json.read Json.InString done ""
                    (Json.escape y ++ String Json.dquote (Json.more_items l ++ "]")));
      [reflexivity|].
    rewrite read_escape, IH, str_app_nil_l. now rewrite <- app_assoc.
Qed.

Lemma json_codec_roundtrip (l : list string) : Json.loads (Json.dumps l) = Some (py_strs l).
Proof.
  unfold Json.loads, Json.dumps. destruct l as [|x l].
  - reflexivity.
  - unfold Json.items, Json.quote. flatten_strings.
    transitivity (py_strs <$> Json.read Json.InString [] ""
                    (Json.escape x ++ String Json.dquote (Json.more_items l ++ "]")));
      [reflexivity|].
    now rewrite read_escape, read_more_items.
Qed.

Example dumps_ex : Json.dumps ["id"; "q"] = "[" ++ Json.quote "id" ++ ", " ++ Json.quote "q" ++ "]".
Proof. reflexivity. Qed.

(** ** The cache, on the reference environment *)

(** An entry written at T is returned one second before T + TTL and is
    treated as absent, and deleted, one second after. *)
Lemma get_respects_ttl_witness :
  let T := 1700000000 in
  let w := world_with [tesla_row T] in
  (exists w', Cache.get (reference_env (inject_Z (T + Cache.CACHE_TTL - 1))
                                       (RequestFails ConnectError) FileMissing)
                        "tesla.com" w = (Ok (py_strs ["id"; "q"]), w')
              /\ db w' = db w)
  /\ (exists w', Cache.get (reference_env (inject_Z (T + Cache.CACHE_TTL + 1))
                                          (RequestFails ConnectError) FileMissing)
                           "tesla.com" w = (Ok PyNone, w')
                 /\ db w' = [])
  /\ Cache.get (reference_env 0 (RequestFails ConnectError) FileMissing)
               "example.com" w = (Ok PyNone, w).
Proof.
  intros T w. split; [|split].
  - destruct (get_respects_ttl
                (reference_env (inject_Z (T + Cache.CACHE_TTL - 1))
                               (RequestFails ConnectError) FileMissing)
                json_codec_roundtrip "tesla.com" ["id"; "q"] T w) as (_ & H & _).
    apply H; [reflexivity | reflexivity].
  - destruct (get_respects_ttl
                (reference_env (inject_Z (T + Cache.CACHE_TTL + 1))
                               (RequestFails ConnectError) FileMissing)
                json_codec_roundtrip "tesla.com" ["id"; "q"] T w) as (_ & H & _).
    destruct H as [_ H]; [reflexivity|].
    destruct H as (w' & Hget & Hdb & _); [vm_compute; discriminate|].
    exists w'. split; [exact Hget | exact Hdb].
  - destruct (get_respects_ttl
                (reference_env 0 (RequestFails ConnectError) FileMissing)
                json_codec_roundtrip "example.com" [] 0 w) as (_ & _ & H).
    apply H. reflexivity.
Defined.

Lemma one_entry_per_domain_witness :
  let E := reference_env 1700000000 (RequestFails ConnectError) FileMissing in
  let w := world_with [tesla_row 1600000000] in
  Cache.primary_key_ok (db w)
  /\ Cache.primary_key_ok (db (Cache.set E "tesla.com" ["page"] w).2)
  /\ Cache.primary_key_ok (db (Cache.get E "tesla.com" w).2).
Proof.
  intros E w.
  assert (Hpk : Cache.primary_key_ok (db w)).
  { apply NoDup_singleton. }
  destruct (one_entry_per_domain E json_codec_roundtrip) as (_ & H & _).
  destruct (H w Hpk) as (Hget & Hset & _).
  split; [exact Hpk|]. split; [apply Hset | apply Hget].
Defined.

Lemma clear_all_counts_witness :
  (Cache.clear_all (world_with five_rows)).1 = Ok 5.
Proof.
  apply (clear_all_counts (reference_env 0 (RequestFails ConnectError) FileMissing)
                          (world_with five_rows)).
  reflexivity.
Defined.

Example set_then_get :
  let E := reference_env 1700000000 (RequestFails ConnectError) FileMissing in
  let w := world_with [tesla_row 1600000000] in
  db (Cache.set E "tesla.com" ["page"] w).2
  = [ {| row_domain := "tesla.com"; row_params_json := Json.dumps ["page"];
         row_timestamp := 1700000000 |} ]
  /\ (Cache.get E "tesla.com" (Cache.set E "tesla.com" ["page"] w).2).1
     = Ok (py_strs ["page"]).
Proof. split; vm_compute; reflexivity. Qed.

(** ** The archive fetch *)

Section FetcherFacts.

Variable E : env.

Lemma process_rows_urls (domain : string) (rows : list pyval) :
  forall urls : gset string,
    (Fetcher.process_rows E domain rows urls).1
    = urls ∪ list_to_set (Fetcher.accepted_before_failure E domain rows).
Proof.
  induction rows as [|row rows IH]; intros urls; simpl.
  - now rewrite (right_id_L ∅ (∪)).
  - destruct (Fetcher.row_accepts E domain row) as [[url|]|e]; simpl.
    + rewrite IH, (comm_L (∪) {[ url ]} urls).
      now rewrite (assoc_L (∪)).
    + apply IH.
    + now rewrite (right_id_L ∅ (∪)).
Qed.

(** The fetch always returns the set the [try] block leaves in [urls], and
    touches neither the table nor the clock; it sends one query. *)
Lemma fetch_returns_block (domain : string) (w : world) :
  exists w',
    Fetcher.fetch_wayback_urls E domain w
    = (Ok (Fetcher.run_block E domain (cdx_server E (Fetcher.query_url domain))).1, w')
    /\ db w' = db w /\ ticks w' = ticks w
    /\ requests w' = (requests w ++ [Fetcher.query_url domain])%list.
Proof.
  unfold Fetcher.fetch_wayback_urls, Fetcher.try_block, bind, http_get, ret. simpl.
  destruct (Fetcher.run_block E domain _) as [urls [| |e]]; simpl;
    [eexists; repeat split; reflexivity ..|].
  destruct e; eexists; repeat split; reflexivity.
Qed.

(** What the sanity check of the loop ensures of a URL it lets through: the
    network location of the URL ends with the characters of the domain. *)
Lemma accepted_netloc_suffix (domain : string) (rows : list pyval) (url : string) :
  url ∈ Fetcher.accepted_before_failure E domain rows ->
  exists netloc p, urlparse_netloc E url = Ok netloc /\ netloc = p ++ domain.
Proof.
  induction rows as [|row rows IH]; simpl; [intros H; now apply elem_of_nil in H|].
  destruct (Fetcher.row_accepts E domain row) as [[u|]|e] eqn:Hrow;
    [|exact IH|intros H; now apply elem_of_nil in H].
  intros H. apply elem_of_cons in H as [->|H]; [|now apply IH].
  unfold Fetcher.row_accepts in Hrow.
  destruct (py_getitem0 row) as [[| | |s| |]|]; try discriminate.
  destruct (urlparse_netloc E s) as [netloc|] eqn:Hn; [|discriminate].
  destruct (Fetcher.belongs_to netloc domain) eqn:Hb; [|discriminate].
  injection Hrow as ->. exists netloc.
  unfold Fetcher.belongs_to in Hb. apply orb_true_iff in Hb as [Hb|Hb].
  - apply endswith_inv in Hb as [p Hp]. now exists p.
  - apply String.eqb_eq in Hb. exists "". now split.
Qed.

Lemma run_block_rows (domain : string) (status_code : Z) (header : pyval)
      (rows : list pyval) :
  200 <= status_code <= 299 ->
  (Fetcher.run_block E domain (Response status_code (Ok (PyList (header :: rows))))).1
  = list_to_set (Fetcher.accepted_before_failure E domain rows).
Proof.
  intros Hs. unfold Fetcher.run_block, Fetcher.raise_for_status.
  replace ((200 <=? status_code) && (status_code <=? 299)) with true
    by (symmetry; apply andb_true_iff; split; apply Z.leb_le; lia).
  destruct rows as [|row rows]; [reflexivity|].
  cbn [py_truthy negb py_len py_iter_from1 List.tl].
  replace (Z.of_nat (List.length (header :: row :: rows)) <=? 1) with false
    by (symmetry; apply Z.leb_gt; simpl List.length; lia).
  pose proof (process_rows_urls domain (row :: rows) ∅) as H.
  destruct (Fetcher.process_rows E domain (row :: rows) ∅) as [urls failure].
  simpl in H |- *. now rewrite H, (left_id_L ∅ (∪)).
Qed.

Lemma run_block_not_success (domain : string) (status_code : Z) (body : result pyval) :
  ~ (200 <= status_code <= 299) ->
  (Fetcher.run_block E domain (Response status_code body)).1 = ∅.
Proof.
  intros Hs. unfold Fetcher.run_block, Fetcher.raise_for_status.
  destruct ((200 <=? status_code) && (status_code <=? 299)) eqn:Hb; [|reflexivity].
  apply andb_true_iff in Hb as [H1 H2]. apply Z.leb_le in H1, H2. lia.
Qed.

Lemma run_block_not_iterable (domain : string) (status_code : Z) (data : pyval) (e : exn) :
  py_iter_from1 data = Raise e ->
  (Fetcher.run_block E domain (Response status_code (Ok data))).1 = ∅.
Proof.
  intros Hit. unfold Fetcher.run_block.
  destruct (Fetcher.raise_for_status status_code); [|reflexivity].
  destruct (negb (py_truthy data)); [reflexivity|].
  destruct (py_len data) as [n|]; [|reflexivity].
  destruct (n <=? 1); [reflexivity|]. now rewrite Hit.
Qed.

Lemma run_block_body_raises (domain : string) (status_code : Z) (e : exn) :
  (Fetcher.run_block E domain (Response status_code (Raise e))).1 = ∅.
Proof.
  unfold Fetcher.run_block.
  destruct (Fetcher.raise_for_status status_code); reflexivity.
Qed.

(** C2, as the code has it.  The fetch never raises.  It returns the empty
    set when the request raises (a connection failure or anything else), when
    the status is not 2xx, when the body does not decode, and when the decoded
    body is not a sequence that can be sliced.  On a 2xx answer whose body is
    a list it returns the URLs that the check lets through among the rows
    before the first row on which the loop raises: what was collected before
    an exception is kept. *)
Theorem fetch_swallows_failures (domain : string) (w : world) :
  exists (urls : gset string) (w' : world),
    Fetcher.fetch_wayback_urls E domain w = (Ok urls, w')
    /\ (forall e,
          cdx_server E (Fetcher.query_url domain) = RequestFails e -> urls = ∅)
    /\ (forall status_code body,
          cdx_server E (Fetcher.query_url domain) = Response status_code body ->
          (~ (200 <= status_code <= 299) -> urls = ∅)
          /\ (forall e, body = Raise e -> urls = ∅)
          /\ (forall data e,
                body = Ok data -> py_iter_from1 data = Raise e -> urls = ∅)
          /\ (forall header rows,
                200 <= status_code <= 299 ->
                body = Ok (PyList (header :: rows)) ->
                urls = list_to_set (Fetcher.accepted_before_failure E domain rows))).
Proof.
  destruct (fetch_returns_block domain w) as (w' & Hfetch & _).
  eexists _, w'. split; [exact Hfetch|]. split.
  - intros e ->. reflexivity.
  - intros status_code body ->. repeat split.
    + apply run_block_not_success.
    + intros e ->. apply run_block_body_raises.
    + intros data e ->. apply run_block_not_iterable.
    + intros header rows Hs ->. now apply run_block_rows.
Qed.

End FetcherFacts.

(** ** The archive fetch, on the reference environment *)

Example netloc_ex1 : Urllib.netloc "https://api.example.com/v1?x=1" = Ok "api.example.com".
Proof. reflexivity. Qed.
Example netloc_ex2 : Urllib.netloc "http://notexample.com/login?next=1" = Ok "notexample.com".
Proof. reflexivity. Qed.
Example netloc_ex3 : Urllib.netloc "http://[example.com/" = Raise ValueError.
Proof. reflexivity. Qed.
Example netloc_ex4 : Urllib.netloc "/relative/path?x=1" = Ok "".
Proof. reflexivity. Qed.
Example netloc_ex6 : Urllib.netloc "http://[example.com]/" = Raise ValueError.
Proof. reflexivity. Qed.
Example netloc_ex7 : Urllib.netloc "http://[::1]:8080/a" = Ok "[::1]:8080".
Proof. reflexivity. Qed.
Example netloc_ex5 : Urllib.netloc "http://example.com:8080/a" = Ok "example.com:8080".
Proof. reflexivity. Qed.

(** C1, where the code departs from it.  For the target [example.com] and an
    answer of the archive that holds a row for the host [notexample.com], the
    fetch returns that row's URL: its network location ends with the characters
    [example.com], which is all the check asks, although the host neither is
    [example.com] nor ends with [.example.com]. *)
Theorem fetch_keeps_lookalike_host :
  let url := "http://notexample.com/login?next=1" in
  let E := archive_env [cdx_row url] in
  Urllib.netloc url = Ok "notexample.com"
  /\ String.eqb "notexample.com" "example.com" = false
  /\ Str.endswith "notexample.com" ".example.com" = false
  /\ Fetcher.belongs_to "notexample.com" "example.com" = true
  /\ (Fetcher.fetch_wayback_urls E "example.com" empty_world).1 = Ok {[ url ]}.
Proof. repeat split; vm_compute; reflexivity. Qed.

(** C2, refuted as stated: the third row makes [urlparse] raise, the
    exception is caught and reported, and the set returned still holds the
    URL of the second row. *)
Lemma fetch_partial_set_counterexample :
  let good := "https://example.com/a?x=1" in
  let bad := "http://[example.com/" in
  let E := archive_env [cdx_row good; cdx_row bad] in
  Fetcher.row_accepts E "example.com" (cdx_row bad) = Raise ValueError
  /\ (exists w',
        Fetcher.fetch_wayback_urls E "example.com" empty_world = (Ok {[ good ]}, w')
        /\ console w' = [FetchUnexpected ValueError])
  /\ ({[ good ]} : gset string) <> ∅.
Proof.
  intros good bad E. split; [reflexivity|]. split.
  - eexists. split; vm_compute; reflexivity.
  - apply non_empty_singleton_L.
Qed.

Example fetch_partial_on_empty_row :
  let E := archive_env [cdx_row "https://example.com/a?x=1"; PyList []] in
  Fetcher.fetch_wayback_urls E "example.com" empty_world
  = (Ok {[ "https://example.com/a?x=1" ]},
     {| db := []; ticks := 0; console := [FetchUnexpected IndexError];
        requests := [".example.com/"] |}).
Proof. vm_compute. reflexivity. Qed.

Example fetch_connect_error :
  Fetcher.fetch_wayback_urls (reference_env 0 (RequestFails ConnectError) FileMissing)
                             "example.com" empty_world
  = (Ok ∅, {| db := []; ticks := 0; console := [FetchConnectionFailed "example.com"];
              requests := [".example.com/"] |}).
Proof. vm_compute. reflexivity. Qed.

Lemma fetch_swallows_failures_witness :
  let good := "https://example.com/a?x=1" in
  let bad := "http://[example.com/" in
  (exists w', Fetcher.fetch_wayback_urls
                (reference_env 0 (Response 503 (Raise JSONDecodeError)) FileMissing)
                "example.com" empty_world = (Ok ∅, w'))
  /\ (exists w', Fetcher.fetch_wayback_urls
                   (archive_env [cdx_row good; cdx_row bad; cdx_row good])
                   "example.com" empty_world = (Ok {[ good ]}, w')).
Proof.
  intros good bad. split.
  - destruct (fetch_swallows_failures
                (reference_env 0 (Response 503 (Raise JSONDecodeError)) FileMissing)
                "example.com" empty_world) as (urls & w' & Hfetch & _ & H).
    destruct (H 503 (Raise JSONDecodeError) eq_refl) as (Hs & _).
    exists w'. rewrite Hfetch, Hs; [reflexivity | lia].
  - destruct (fetch_swallows_failures
                (archive_env [cdx_row good; cdx_row bad; cdx_row good])
                "example.com" empty_world) as (urls & w' & Hfetch & _ & H).
    destruct (H 200 _ eq_refl) as (_ & _ & _ & Hrows).
    exists w'. rewrite Hfetch, (Hrows cdx_header _ ltac:(lia) eq_refl).
    vm_compute. reflexivity.
Defined.

(** ** The retry wrapper *)

Lemma total_sleep_app (tr1 tr2 : list Decorators.retry_event) :
  Decorators.total_sleep (tr1 ++ tr2)
  = Decorators.total_sleep tr1 + Decorators.total_sleep tr2.
Proof.
  induction tr1 as [|ev tr1 IH]; simpl; [reflexivity|].
  destruct ev; rewrite IH; lia.
Qed.

Section RetryFacts.

Context {St T : Type}.
Variables (max_retries delay : Z) (exceptions : exn -> bool).
Variable func : St -> result T * St.

Abbreviation attempts := (Decorators.attempts max_retries delay exceptions func).
Abbreviation wrapper := (Decorators.wrapper max_retries delay exceptions func).
Abbreviation outcome_at := (Decorators.outcome_at func).
Abbreviation state_after := (Decorators.state_after func).
Abbreviation retried_at := (Decorators.retried_at exceptions func).

Lemma state_after_succ (k : nat) :
  forall st : St, state_after (S k) st = (func (state_after k st)).2.
Proof.
  induction k as [|k IH]; intros st; [reflexivity|].
  change (state_after (S (S k)) st) with (state_after (S k) (func st).2).
  now rewrite IH.
Qed.

(** [k] retried failures in a row use up [k] turns of the loop, [k] calls
    and [k] sleeps. *)
Lemma attempts_retry_prefix (k : nat) :
  forall (fuel : nat) (attempt : Z) (s : Decorators.run_state),
    (forall j, (j < k)%nat -> retried_at j (Decorators.op_state s)) ->
    attempt + Z.of_nat k <= max_retries - 1 ->
    exists s',
      attempts (k + fuel) attempt s = attempts fuel (attempt + Z.of_nat k) s'
      /\ Decorators.op_state s' = state_after k (Decorators.op_state s)
      /\ Decorators.calls s' = (Decorators.calls s + k)%nat
      /\ Decorators.total_sleep (Decorators.trace s')
         = Decorators.total_sleep (Decorators.trace s) + Z.of_nat k * delay.
Proof.
  induction k as [|k IH]; intros fuel attempt s Hretry Hle.
  - exists s. rewrite Z.add_0_r, Nat.add_0_r. repeat split. simpl. lia.
  - destruct (Hretry 0%nat ltac:(lia)) as (e & He & Hexc).
    unfold Decorators.outcome_at in He. simpl in He.
    destruct (func (Decorators.op_state s)) as [r st1] eqn:Hcall. simpl in He. subst r.
    set (s1 := Decorators.emit (Decorators.Slept delay)
                 (Decorators.emit (Decorators.Warned attempt e)
                    {| Decorators.op_state := st1;
                       Decorators.calls := S (Decorators.calls s);
                       Decorators.trace := Decorators.trace s |})).
    destruct (IH fuel (attempt + 1) s1) as (s' & Hrun & Hst & Hcalls & Hsleep).
    + intros j Hj. destruct (Hretry (S j) ltac:(lia)) as (e' & He' & Hexc').
      exists e'. split; [|exact Hexc'].
      unfold Decorators.outcome_at in *. simpl in He'. rewrite Hcall in He'. exact He'.
    + lia.
    + exists s'. split; [|split; [|split]].
      * change (S k + fuel)%nat with (S (k + fuel)). cbn [Decorators.attempts].
        unfold Decorators.call_func. rewrite Hcall, Hexc.
        replace (attempt <? max_retries - 1) with true by (symmetry; apply Z.ltb_lt; lia).
        fold s1. rewrite Hrun. f_equal. lia.
      * rewrite Hst. simpl. now rewrite Hcall.
      * rewrite Hcalls. simpl. lia.
      * rewrite Hsleep. simpl Decorators.trace.
        rewrite !total_sleep_app. simpl. lia.
Qed.

(** After [k] retried failures the next call decides, when its outcome is
    a value or an exception the wrapper does not retry on. *)
Lemma wrapper_decided (k : nat) (s : Decorators.run_state) (r : result T) :
  (k < Z.to_nat max_retries)%nat ->
  (forall j, (j < k)%nat -> retried_at j (Decorators.op_state s)) ->
  outcome_at k (Decorators.op_state s) = r ->
  match r with Ok _ => True | Raise e => exceptions e = false end ->
  exists s',
    wrapper s = (match r with Ok v => Ok (Some v) | Raise e => Raise e end, s')
    /\ Decorators.op_state s' = state_after (S k) (Decorators.op_state s)
    /\ Decorators.calls s' = (Decorators.calls s + S k)%nat
    /\ Decorators.total_sleep (Decorators.trace s')
       = Decorators.total_sleep (Decorators.trace s) + Z.of_nat k * delay.
Proof.
  intros Hk Hretry Hout Hr.
  destruct (attempts_retry_prefix k (Z.to_nat max_retries - k) 0 s Hretry ltac:(lia))
    as (s1 & Hrun & Hst & Hcalls & Hsleep).
  unfold Decorators.wrapper.
  replace (Z.to_nat max_retries) with (k + (Z.to_nat max_retries - k))%nat by lia.
  rewrite Hrun.
  destruct (Z.to_nat max_retries - k)%nat as [|fuel] eqn:Hfuel; [lia|].
  cbn [Decorators.attempts]. unfold Decorators.call_func.
  unfold Decorators.outcome_at in Hout. rewrite <- Hst in Hout.
  destruct (func (Decorators.op_state s1)) as [r1 st2] eqn:Hcall.
  simpl in Hout. subst r1.
  assert (Hst2 : st2 = state_after (S k) (Decorators.op_state s)).
  { now rewrite state_after_succ, <- Hst, Hcall. }
  destruct r as [v|e].
  - eexists. split; [reflexivity|]. simpl. repeat split; [exact Hst2 | lia | lia].
  - rewrite Hr. eexists. split; [reflexivity|]. simpl.
    repeat split; [exact Hst2 | lia | lia].
Qed.

(** When every call of the budget is a retried failure, the last one is
    raised again. *)
Lemma wrapper_exhausted (s : Decorators.run_state) :
  0 < max_retries ->
  (forall j, (j < Z.to_nat max_retries)%nat -> retried_at j (Decorators.op_state s)) ->
  exists e s',
    outcome_at (Z.to_nat max_retries - 1) (Decorators.op_state s) = Raise e
    /\ wrapper s = (Raise e, s')
    /\ Decorators.op_state s'
       = state_after (Z.to_nat max_retries) (Decorators.op_state s)
    /\ Decorators.calls s' = (Decorators.calls s + Z.to_nat max_retries)%nat
    /\ Decorators.total_sleep (Decorators.trace s')
       = Decorators.total_sleep (Decorators.trace s) + (max_retries - 1) * delay.
Proof.
  intros Hpos Hretry. remember (Z.to_nat max_retries - 1)%nat as k eqn:Hk.
  destruct (attempts_retry_prefix k 1 0 s) as (s1 & Hrun & Hst & Hcalls & Hsleep).
  { intros j Hj. apply Hretry. lia. }
  { lia. }
  destruct (Hretry k ltac:(lia)) as (e & He & Hexc).
  exists e. unfold Decorators.wrapper.
  replace (Z.to_nat max_retries) with (k + 1)%nat by lia.
  rewrite Hrun. cbn [Decorators.attempts]. unfold Decorators.call_func.
  pose proof He as Hout. unfold Decorators.outcome_at in Hout. rewrite <- Hst in Hout.
  destruct (func (Decorators.op_state s1)) as [r1 st2] eqn:Hcall.
  simpl in Hout. subst r1. rewrite Hexc.
  replace (0 + Z.of_nat k <? max_retries - 1) with false
    by (symmetry; apply Z.ltb_ge; lia).
  assert (Hst2 : st2 = state_after (k + 1) (Decorators.op_state s)).
  { now rewrite Nat.add_1_r, state_after_succ, <- Hst, Hcall. }
  eexists. split; [exact He|]. split; [reflexivity|]. simpl.
  repeat split; [exact Hst2 | lia |].
  rewrite total_sleep_app, Hsleep. simpl.
  replace (max_retries - 1) with (Z.of_nat k) by lia. lia.
Qed.

End RetryFacts.

(** C3. With attempt budget N (3 unless given), delay d (2 seconds unless
    given) and the retried classes (connection failure, HTTP-status failure,
    timeout, unless given): when each of the N calls fails with a retried
    class, the exception of the last call is raised again, after exactly N
    calls and N - 1 sleeps of d seconds (N at least 1); when a call fails with
    a class that is not retried, that exception is raised at once and no
    further call is made; when a call returns v, the wrapper returns v. *)
Theorem retry_on_failure_contract {St T : Type}
        (max_retries delay : option Z) (exceptions : option (exn -> bool))
        (func : St -> result T * St) (s : Decorators.run_state) :
  let N := default Decorators.default_max_retries max_retries in
  let d := default Decorators.default_delay delay in
  let kinds := default Decorators.default_exceptions exceptions in
  let st := Decorators.op_state s in
  let n := Z.to_nat N in
  let wrapped := Decorators.retry_on_failure max_retries delay exceptions func in
  (Decorators.default_max_retries = 3
   /\ Decorators.default_delay = 2
   /\ forall e, Decorators.default_exceptions e = true
                <-> (e = ConnectError \/ e = TimeoutError
                     \/ exists c, e = HTTPStatusError c))
  /\ (0 < N ->
      (forall j, (j < n)%nat -> Decorators.retried_at kinds func j st) ->
      exists e s',
        Decorators.outcome_at func (n - 1) st = Raise e
        /\ wrapped s = (Raise e, s')
        /\ Decorators.calls s' = (Decorators.calls s + n)%nat
        /\ Decorators.total_sleep (Decorators.trace s')
           = Decorators.total_sleep (Decorators.trace s) + (N - 1) * d)
  /\ (forall k e,
        (k < n)%nat ->
        (forall j, (j < k)%nat -> Decorators.retried_at kinds func j st) ->
        Decorators.outcome_at func k st = Raise e ->
        kinds e = false ->
        exists s',
          wrapped s = (Raise e, s')
          /\ Decorators.calls s' = (Decorators.calls s + S k)%nat
          /\ Decorators.total_sleep (Decorators.trace s')
             = Decorators.total_sleep (Decorators.trace s) + Z.of_nat k * d)
  /\ (forall k v,
        (k < n)%nat ->
        (forall j, (j < k)%nat -> Decorators.retried_at kinds func j st) ->
        Decorators.outcome_at func k st = Ok v ->
        exists s',
          wrapped s = (Ok (Some v), s')
          /\ Decorators.calls s' = (Decorators.calls s + S k)%nat
          /\ Decorators.total_sleep (Decorators.trace s')
             = Decorators.total_sleep (Decorators.trace s) + Z.of_nat k * d).
Proof.
  intros N d kinds st n wrapped. split; [|split; [|split]].
  - split; [reflexivity|]. split; [reflexivity|].
    intros e. split.
    + destruct e; try discriminate; intros _; eauto.
    + intros [->|[->|[c ->]]]; reflexivity.
  - intros Hpos Hretry.
    destruct (wrapper_exhausted N d kinds func s Hpos Hretry)
      as (e & s' & Hout & Hrun & _ & Hcalls & Hsleep).
    exists e, s'. repeat split; assumption.
  - intros k e Hk Hretry Hout Hkind.
    destruct (wrapper_decided N d kinds func k s (Raise e) Hk Hretry Hout Hkind)
      as (s' & Hrun & _ & Hcalls & Hsleep).
    exists s'. repeat split; assumption.
  - intros k v Hk Hretry Hout.
    destruct (wrapper_decided N d kinds func k s (Ok v) Hk Hretry Hout I)
      as (s' & Hrun & _ & Hcalls & Hsleep).
    exists s'. repeat split; assumption.
Qed.

Lemma retry_on_failure_contract_witness :
  (* three connection failures with the default budget of three *)
  (exists s', Decorators.retry_on_failure None None None (flaky 3 ConnectError) fresh_run
              = (Raise ConnectError, s')
              /\ Decorators.calls s' = 3%nat
              /\ Decorators.total_sleep (Decorators.trace s') = 4)
  (* a timeout, then an exception that is not retried *)
  /\ (exists s', Decorators.retry_on_failure
                   None None None
                   (fun n => (if (n <? 1)%nat then Raise TimeoutError else Raise KeyError, S n))
                   fresh_run
                 = (@Raise (option nat) KeyError, s')
                 /\ Decorators.calls s' = 2%nat)
  (* two failures, then a value *)
  /\ (exists s', Decorators.retry_on_failure None None None (flaky 2 (HTTPStatusError 503))
                                             fresh_run
                 = (Ok (Some 3%nat), s')
                 /\ Decorators.calls s' = 3%nat).
Proof.
  split; [|split].
  - destruct (retry_on_failure_contract None None None (flaky 3 ConnectError) fresh_run)
      as (_ & H & _).
    destruct H as (e & s' & Hout & Hrun & Hcalls & Hsleep).
    + reflexivity.
    + intros j Hj. exists ConnectError.
      destruct j as [|[|[|j]]]; [split; reflexivity ..|].
      change (S (S (S j)) < 3)%nat in Hj. lia.
    + injection Hout as <-. exists s'. repeat split; assumption.
  - destruct (retry_on_failure_contract
                None None None
                (fun n => (if (n <? 1)%nat then Raise TimeoutError else @Raise nat KeyError, S n))
                fresh_run) as (_ & _ & H & _).
    destruct (H 1%nat KeyError) as (s' & Hrun & Hcalls & _).
    + change (1 < 3)%nat. lia.
    + intros j Hj. exists TimeoutError.
      destruct j as [|j]; [split; reflexivity | lia].
    + reflexivity.
    + reflexivity.
    + exists s'. split; assumption.
  - destruct (retry_on_failure_contract None None None (flaky 2 (HTTPStatusError 503))
                                        fresh_run) as (_ & _ & _ & H).
    destruct (H 2%nat 3%nat) as (s' & Hrun & Hcalls & _).
    + change (2 < 3)%nat. lia.
    + intros j Hj. exists (HTTPStatusError 503).
      destruct j as [|[|j]]; [split; reflexivity ..|]. lia.
    + reflexivity.
    + exists s'. split; assumption.
Defined.

(** With a budget of zero the loop has no turn: no call is made and the
    wrapper returns [None]. *)
Example retry_zero_budget :
  Decorators.retry_on_failure (Some 0) None None (flaky 3 ConnectError) fresh_run
  = (Ok None, fresh_run).
Proof. reflexivity. Qed.

Example retry_trace :
  (Decorators.retry_on_failure None None None (flaky 1 ConnectError) fresh_run).2
  = {| Decorators.op_state := 2%nat; Decorators.calls := 2;
       Decorators.trace := [Decorators.Warned 0 ConnectError; Decorators.Slept 2] |}.
Proof. reflexivity. Qed.

(** ** The monad *)

Lemma bind_ok {A B} (m : M A) (k : A -> M B) (w w' : world) (a : A) :
  m w = (Ok a, w') -> bind m k w = k a w'.
Proof. intros H. unfold bind. now rewrite H. Qed.








Section CliFacts.

Variable E : env.














(** The two handlers of the loader.  When the packaged wordlist file is
    absent, or its text is read and the JSON decoder rejects it, the loader
    prints its message and returns the empty list; no exception reaches its
    caller. *)
Theorem load_builtin_degrades (w : world) :
  (builtin_file E = FileMissing ->
   Cli._load_builtin_params E w
   = (Ok (PyList []),
      {| db := db w; ticks := ticks w; console := console w ++ [BuiltinNotFound];
         requests := requests w |}))
  /\ (forall text,
        builtin_file E = FileText text ->
        json_loads E text = None ->
        Cli._load_builtin_params E w
        = (Ok (PyList []),
           {| db := db w; ticks := ticks w;
              console := console w ++ [BuiltinParseFailed];
              requests := requests w |})).
Proof.
  unfold Cli._load_builtin_params, try_except. split.
  - intros ->. reflexivity.
  - intros text -> Hbad. unfold Cli.json_load. rewrite Hbad. reflexivity.
Qed.

(** [json.loads] undoes [json.dumps] on lists of strings. *)
Hypothesis json_roundtrip :
  forall l : list string, json_loads E (json_dumps E l) = Some (py_strs l).


End CliFacts.

(** ** The command line, on the reference environment *)


Example scan_no_urls_console :
  console (Cli.scan (archive_env []) "example.com" false None empty_world).2
  = [Scanning "example.com"; NoUrlsFound "example.com"].
Proof. reflexivity. Qed.

Example scan_connection_failure :
  Cli.scan (reference_env 0 (RequestFails ConnectError) FileMissing)
           "example.com" false None empty_world
  = (Raise (TyperExit 1),
     {| db := []; ticks := 0;
        console := [Scanning "example.com"; FetchConnectionFailed "example.com";
                    NoUrlsFound "example.com"];
        requests := [".example.com/"] |}).
Proof. vm_compute. reflexivity. Qed.

Lemma load_builtin_degrades_witness :
  (Cli._load_builtin_params (archive_env []) empty_world).1 = Ok (PyList [])
  /\ (Cli._load_builtin_params
        (reference_env 0 (RequestFails ConnectError) (FileText "{not json"))
        empty_world)
     = (Ok (PyList []),
        {| db := []; ticks := 0; console := [BuiltinParseFailed]; requests := [] |}).
Proof.
  split.
  - destruct (load_builtin_degrades (archive_env []) empty_world) as [H _].
    now rewrite H.
  - destruct (load_builtin_degrades
                (reference_env 0 (RequestFails ConnectError) (FileText "{not json"))
                empty_world) as [_ H].
    apply (H "{not json"); reflexivity.
Defined.

(** C8, at the input where the code departs from it.  The packaged file is
    there and its bytes do not decode as text, so that it is not valid JSON:
    reading it inside [json.load] raises [UnicodeDecodeError], which neither
    handler of the loader catches.  No message is printed and no list is
    returned: the exception leaves the loader and then, the URLs fetched,
    [scan], as a failure the command-line runtime did not ask for. *)
Theorem load_builtin_undecodable_raises :
  builtin_file undecodable_env = FileUndecodable
  /\ Cli._load_builtin_params undecodable_env empty_world
     = (Raise UnicodeDecodeError, empty_world)
  /\ (Cli.scan undecodable_env "example.com" false None empty_world).1
     = Raise UnicodeDecodeError
  /\ Cli.unhandled_failure
       (Cli.scan undecodable_env "example.com" false None empty_world).1 = true.
Proof. repeat split; vm_compute; reflexivity. Qed.


(** A whole scan on a fresh answer of the archive: the extracted name that
    the wordlist knows is stored and printed. *)
Example scan_end_to_end :
  let E := reference_env 1700000100
             (Response 200 (Ok (PyList [cdx_header;
                                        cdx_row "https://example.com/a?id=1";
                                        cdx_row "https://example.com/b?zz=2"])))
             (FileText (Json.dumps ["id"; "page"])) in
  Cli.scan E "example.com" false None empty_world
  = (Ok tt,
     {| db := [ {| row_domain := "example.com"; row_params_json := Json.dumps ["id"];
                   row_timestamp := 1700000100 |} ];
        ticks := 1;
        console := [Scanning "example.com"; FoundUrls 2; FinalListHeader 1;
                    ParamLine (PyStr "id")];
        requests := [".example.com/"] |}).
Proof. vm_compute. reflexivity. Qed.

(** ** The parameter extractor *)










(* percent coding *)





















Example query_pairs_ex :
  Parser.query_pairs "https://x.com/path?a=1&b=2&a=3#frag"
  = [("a", "1"); ("b", "2"); ("a", "3")].
Proof. reflexivity. Qed.

Example extract_percent :
  Parser.extract_params_from_url "https://x.com/?user%5Fid=7&flag&q=a%20b"
  = {[ "user_id"; "q" ]}.
Proof. vm_compute. reflexivity. Qed.

Example extract_values_ignored :
  Parser.extract_params_from_url "https://x.com/path?a=1&b=2&a=3"
  = Parser.extract_params_from_url "https://x.com/other?b=&a=zzz".
Proof. vm_compute. reflexivity. Qed.

(* ===================================================================== *)
(** * Further properties of the code *)
(* ===================================================================== *)

(** ** More on the cache table *)

Lemma select_delete_other (d d' : string) (t : list params_row) :
  d' <> d ->
  Cache.select_by_domain d' (Cache.delete_by_domain d t) = Cache.select_by_domain d' t.
Proof.
  intros Hne. unfold Cache.select_by_domain, Cache.delete_by_domain.
  induction t as [|r t IH]; simpl; [reflexivity|].
  destruct (String.eqb_spec (row_domain r) d) as [Hd|Hd]; simpl.
  - destruct (String.eqb_spec (row_domain r) d') as [Hd'|_]; [congruence | exact IH].
  - destruct (String.eqb (row_domain r) d'); [reflexivity | exact IH].
Qed.

Lemma delete_absent (d : string) (t : list params_row) :
  Cache.select_by_domain d t = None -> Cache.delete_by_domain d t = t.
Proof.
  unfold Cache.select_by_domain, Cache.delete_by_domain.
  induction t as [|r t IH]; simpl; [reflexivity|].
  destruct (String.eqb (row_domain r) d); simpl; [discriminate|].
  intros H. now rewrite IH.
Qed.

Lemma select_insert_other (r : params_row) (d' : string) (t : list params_row) :
  d' <> row_domain r ->
  Cache.select_by_domain d' (Cache.insert_or_replace r t) = Cache.select_by_domain d' t.
Proof.
  intros Hne. unfold Cache.insert_or_replace.
  rewrite <- (select_delete_other (row_domain r) d' t Hne).
  unfold Cache.select_by_domain.
  induction (Cache.delete_by_domain (row_domain r) t) as [|r0 t0 IH]; simpl.
  - destruct (String.eqb_spec (row_domain r) d'); [congruence | reflexivity].
  - destruct (String.eqb (row_domain r0) d'); [reflexivity | exact IH].
Qed.

Lemma select_None_not_in (d : string) (t : list params_row) :
  Cache.select_by_domain d t = None <-> d ∉ row_domain <$> t.
Proof.
  unfold Cache.select_by_domain. induction t as [|r t IH]; simpl.
  - split; [intros _; apply not_elem_of_nil | reflexivity].
  - rewrite not_elem_of_cons.
    destruct (String.eqb_spec (row_domain r) d) as [Hd|Hd].
    + split; [discriminate | intros [H _]; congruence].
    + rewrite IH. split; [intros H; split; [congruence | exact H] | intros [_ H]; exact H].
Qed.

Lemma length_delete_present (d : string) (t : list params_row) (r : params_row) :
  Cache.primary_key_ok t ->
  Cache.select_by_domain d t = Some r ->
  S (List.length (Cache.delete_by_domain d t)) = List.length t.
Proof.
  unfold Cache.primary_key_ok.
  induction t as [|r0 t IH]; [discriminate|].
  rewrite fmap_cons, NoDup_cons. intros [Hnotin Hnd].
  unfold Cache.select_by_domain, Cache.delete_by_domain. simpl.
  destruct (String.eqb_spec (row_domain r0) d) as [Hd|Hd]; simpl.
  - intros _. f_equal.
    fold (Cache.delete_by_domain d t). rewrite delete_absent; [reflexivity|].
    apply select_None_not_in. now rewrite <- Hd.
  - intros Hsel. f_equal. now apply IH.
Qed.

Section CacheMore.

Variable E : env.

(** X1. [delete] never raises.  Afterwards the table holds no row for the
    domain, the rows of the other domains are as before, and a [get] for the
    domain returns [None]; when there was no row for the domain, nothing
    changes at all. *)
Theorem delete_removes_only_its_entry (domain : string) (w : world) :
  exists w',
    Cache.delete domain w = (Ok tt, w')
    /\ Cache.select_by_domain domain (db w') = None
    /\ (forall d', d' <> domain ->
          Cache.select_by_domain d' (db w') = Cache.select_by_domain d' (db w))
    /\ (Cache.select_by_domain domain (db w) = None -> w' = w)
    /\ Cache.get E domain w' = (Ok PyNone, w').
Proof.
  exists (Cache.delete domain w).2. split; [reflexivity|].
  assert (Hnone : Cache.select_by_domain domain (db (Cache.delete domain w).2) = None)
    by apply select_delete_by_domain.
  split; [exact Hnone|]. split; [|split].
  - intros d' Hne. now apply select_delete_other.
  - intros Habs. unfold Cache.delete, bind, read_db, write_db. simpl.
    rewrite (delete_absent _ _ Habs). now destruct w.
  - now apply get_missing.
Qed.

(** X2. [get], [set] and [delete] on one domain leave the entry of every
    other domain as it was. *)
Theorem other_domains_untouched (d d' : string) (params : list string) (w : world) :
  d' <> d ->
  Cache.select_by_domain d' (db (Cache.get E d w).2) = Cache.select_by_domain d' (db w)
  /\ Cache.select_by_domain d' (db (Cache.set E d params w).2)
     = Cache.select_by_domain d' (db w)
  /\ Cache.select_by_domain d' (db (Cache.delete d w).2)
     = Cache.select_by_domain d' (db w).
Proof.
  intros Hne. split; [|split].
  - destruct (get_db E d w) as [-> | ->]; [reflexivity | now apply select_delete_other].
  - apply (select_insert_other
             {| row_domain := d; row_params_json := json_dumps E params;
                row_timestamp := Cache.py_int (clock E (ticks w)) |}). exact Hne.
  - now apply select_delete_other.
Qed.

(** X3. On a table that respects the primary key, [set] adds one row when
    the domain had none and keeps the number of rows when it had one. *)
Theorem set_row_count (d : string) (params : list string) (w : world) :
  Cache.primary_key_ok (db w) ->
  List.length (db (Cache.set E d params w).2)
  = match Cache.select_by_domain d (db w) with
    | Some _ => List.length (db w)
    | None => S (List.length (db w))
    end.
Proof.
  intros Hpk.
  change (db (Cache.set E d params w).2)
    with (Cache.delete_by_domain d (db w)
          ++ [ {| row_domain := d; row_params_json := json_dumps E params;
                  row_timestamp := Cache.py_int (clock E (ticks w)) |} ])%list.
  rewrite length_app. simpl.
  destruct (Cache.select_by_domain d (db w)) as [r|] eqn:Hsel.
  - rewrite <- (length_delete_present d (db w) r Hpk Hsel). lia.
  - rewrite (delete_absent _ _ Hsel). lia.
Qed.

End CacheMore.


Lemma last_char_app (a : string) (c : ascii) (b : string) :
  last_char (a ++ String c b) = last_char (String c b).
Proof.
  induction a as [|x a IH]; [reflexivity|].
  rewrite str_app_cons. cbn [last_char]. rewrite IH.
  destruct (a ++ String c b) eqn:Hab; [|reflexivity].
  destruct a; discriminate.
Qed.

Section TimeRemaining.

Variable E : env.


Lemma time_remaining_unfold (timestamp : Z) (w : world) :
  let rem := remaining timestamp (clock E (ticks w)) in
  let days := Qfloor (rem / inject_Z (24 * 3600)) in
  let hours := Qfloor ((rem - inject_Z (days * (24 * 3600))) / inject_Z 3600) in
  (Cache._time_remaining E timestamp w).1
  = Ok (if Qle_bool rem 0 then "Expired"
        else if 0 <? days
             then Cache.py_str_int days ++ " days, " ++ Cache.py_str_int hours ++ " hours"
             else if 0 <? hours then Cache.py_str_int hours ++ " hours"
                  else "Less than 1 hour").
Proof.
  intros rem days hours. subst rem days hours. unfold remaining.
  unfold Cache._time_remaining, bind, time_time. cbv beta iota zeta.
  destruct (Qle_bool _ 0); [reflexivity|].
  destruct (0 <? _); [reflexivity|].
  destruct (0 <? _); reflexivity.
Qed.

Lemma floor_unique (x : Q) (n : Z) :
  (inject_Z n <= x)%Q -> (x < inject_Z n + 1)%Q -> Qfloor x = n.
Proof.
  intros Hlo Hhi.
  pose proof (Qfloor_le x) as H1. pose proof (Qlt_floor x) as H2.
  rewrite inject_Z_plus in H2.
  assert (Ha : (inject_Z (Qfloor x) < inject_Z (n + 1))%Q)
    by (rewrite inject_Z_plus; change (inject_Z 1) with 1%Q; lra).
  assert (Hb : (inject_Z n < inject_Z (Qfloor x + 1))%Q)
    by (rewrite inject_Z_plus; change (inject_Z 1) with 1%Q in *; lra).
  rewrite <- Zlt_Qlt in Ha, Hb. lia.
Qed.

(** Days and hours of a positive remainder: the quotient by a day, and the
    quotient by an hour of what is left, which is below 24. *)
Lemma days_hours (rem : Q) :
  (0 < rem)%Q ->
  let days := Qfloor (rem / inject_Z (24 * 3600)) in
  let hours := Qfloor ((rem - inject_Z (days * (24 * 3600))) / inject_Z 3600) in
  0 <= days /\ 0 <= hours <= 23
  /\ (inject_Z (days * 86400 + hours * 3600) <= rem)%Q
  /\ (rem < inject_Z (days * 86400 + hours * 3600 + 3600))%Q.
Proof.
  intros Hpos days hours.
  change (inject_Z (24 * 3600)) with 86400%Q in *.
  change (inject_Z 3600) with 3600%Q in *.
  pose proof (Qfloor_le (rem / 86400)) as Hd1.
  pose proof (Qlt_floor (rem / 86400)) as Hd2.
  fold days in Hd1, Hd2. rewrite inject_Z_plus in Hd2. change (inject_Z 1) with 1%Q in Hd2.
  assert (Hdm : (inject_Z (days * (24 * 3600)) == inject_Z days * 86400)%Q)
    by (rewrite inject_Z_mult; reflexivity).
  set (left := (rem - inject_Z (days * (24 * 3600)))%Q) in *.
  pose proof (Qfloor_le (left / 3600)) as Hh1.
  pose proof (Qlt_floor (left / 3600)) as Hh2.
  fold hours in Hh1, Hh2. rewrite inject_Z_plus in Hh2. change (inject_Z 1) with 1%Q in Hh2.
  assert (Hrem : (rem == (rem / 86400) * 86400)%Q) by (field).
  assert (Hleft : (left == (left / 3600) * 3600)%Q) by (field).
  assert (Hleft_def : (left == rem - inject_Z days * 86400)%Q)
    by (unfold left; rewrite Hdm; reflexivity).
  set (x := (rem / 86400)%Q) in *. set (y := (left / 3600)%Q) in *.
  assert (Hx0 : (0 < x)%Q) by lra.
  assert (Hd0 : (inject_Z (-1) < inject_Z days)%Q)
    by (change (inject_Z (-1)) with (-1)%Q; lra).
  rewrite <- Zlt_Qlt in Hd0.
  assert (Hy0 : (0 <= y)%Q) by lra.
  assert (Hy24 : (y < 24)%Q) by lra.
  assert (Hh0 : (inject_Z (-1) < inject_Z hours)%Q)
    by (change (inject_Z (-1)) with (-1)%Q; lra).
  assert (Hh24 : (inject_Z hours < inject_Z 24)%Q)
    by (change (inject_Z 24) with 24%Q; lra).
  rewrite <- Zlt_Qlt in Hh0, Hh24.
  split; [lia|]. split; [lia|].
  rewrite !inject_Z_plus, !inject_Z_mult.
  change (inject_Z 86400) with 86400%Q. change (inject_Z 3600) with 3600%Q.
  split; lra.
Qed.

Lemma time_remaining_ok (timestamp : Z) (w : world) :
  exists s,
    Cache._time_remaining E timestamp w
    = (Ok s, {| db := db w; ticks := S (ticks w); console := console w;
                requests := requests w |}).
Proof.
  unfold Cache._time_remaining, bind, time_time. cbv beta iota zeta.
  destruct (Qle_bool _ 0); [eexists; reflexivity|].
  destruct (0 <? _); [eexists; reflexivity|].
  destruct (0 <? _); eexists; reflexivity.
Qed.

(** X6. [_time_remaining] answers "Expired" exactly when, at the clock
    reading it takes, the age of the entry has reached the TTL: the test by
    which [get] drops an entry. *)
Theorem time_remaining_expired_iff (timestamp : Z) (w : world) :
  (Cache._time_remaining E timestamp w).1 = Ok "Expired"
  <-> (inject_Z Cache.CACHE_TTL <= clock E (ticks w) - inject_Z timestamp)%Q.
Proof.
  rewrite time_remaining_unfold. unfold remaining.
  destruct (Qle_bool _ 0) eqn:Hle.
  - apply Qle_bool_iff in Hle. rewrite inject_Z_plus in Hle.
    split; [intros _; lra | reflexivity].
  - split.
    + intros Heq. exfalso. injection Heq as Heq.
      apply (f_equal last_char) in Heq. revert Heq.
      destruct (0 <? _); [|destruct (0 <? _)];
        rewrite <- ?str_app_assoc, ?last_char_app; discriminate.
    + intros Hge. exfalso.
      assert (Htrue : Qle_bool (inject_Z (timestamp + Cache.CACHE_TTL)
                                - clock E (ticks w)) 0 = true)
        by (apply Qle_bool_iff; rewrite inject_Z_plus; lra).
      congruence.
Qed.

(** X7. For an entry with time left, [_time_remaining] shows the whole days
    and the whole hours (0 to 23) of what is left, rounded down; the days are
    left out when there are none, and below one hour the answer is "Less than
    1 hour".  For a time stamp that is not in the future the days are at most
    30. *)
Theorem time_remaining_rounds_down (timestamp : Z) (w : world) :
  let now := clock E (ticks w) in
  let rem := remaining timestamp now in
  (0 < rem)%Q ->
  exists days hours,
    0 <= days /\ 0 <= hours <= 23
    /\ (inject_Z (days * 86400 + hours * 3600) <= rem)%Q
    /\ (rem < inject_Z (days * 86400 + hours * 3600 + 3600))%Q
    /\ (Cache._time_remaining E timestamp w).1
       = Ok (if 0 <? days
             then Cache.py_str_int days ++ " days, "
                  ++ Cache.py_str_int hours ++ " hours"
             else if 0 <? hours then Cache.py_str_int hours ++ " hours"
                  else "Less than 1 hour")
    /\ ((inject_Z timestamp <= now)%Q -> days <= 30).
Proof.
  intros now rem Hpos.
  destruct (days_hours rem Hpos) as (Hd & Hh & Hlo & Hhi).
  eexists _, _. split; [exact Hd|]. split; [exact Hh|].
  split; [exact Hlo|]. split; [exact Hhi|]. split.
  - rewrite time_remaining_unfold. fold now. fold rem.
    replace (Qle_bool rem 0) with false; [reflexivity|].
    symmetry. apply not_true_iff_false. rewrite Qle_bool_iff. lra.
  - intros Hnow.
    set (days := Qfloor (rem / inject_Z (24 * 3600))) in *.
    set (hours := Qfloor ((rem - inject_Z (days * (24 * 3600))) / inject_Z 3600)) in *.
    assert (Hrem : (rem <= inject_Z (30 * 86400))%Q).
    { unfold rem, remaining. rewrite inject_Z_plus.
      change (inject_Z Cache.CACHE_TTL) with (inject_Z (30 * 86400)). lra. }
    assert (Hq : (inject_Z (days * 86400 + hours * 3600) <= inject_Z (30 * 86400))%Q)
      by lra.
    rewrite <- Zle_Qle in Hq. lia.
Qed.

Lemma status_of_rows (rows : list params_row) :
  forall w : world,
  exists status w',
    mapM (fun r =>
            let! expires_in := Cache._time_remaining E (row_timestamp r) in
            ret {| Cache.st_domain := row_domain r;
                   Cache.st_cached_since := strftime_local E (row_timestamp r);
                   Cache.st_expires_in := expires_in |}) rows w
    = (Ok status, w')
    /\ Cache.st_domain <$> status = row_domain <$> rows
    /\ Cache.st_cached_since <$> status
       = (fun r => strftime_local E (row_timestamp r)) <$> rows
    /\ db w' = db w
    /\ ticks w' = (ticks w + List.length rows)%nat
    /\ console w' = console w
    /\ requests w' = requests w.
Proof.
  induction rows as [|r rows IH]; intros w.
  - exists [], w. repeat split. simpl. lia.
  - destruct (time_remaining_ok (row_timestamp r) w) as (s & Hrem).
    set (w1 := {| db := db w; ticks := S (ticks w); console := console w;
                  requests := requests w |}) in Hrem.
    destruct (IH w1) as (st & w' & Hrun & Hdom & Hsince & Hdb & Hticks & Hcon & Hreq).
    cbn [mapM].
    rewrite (bind_ok _ _ w w1 _ (bind_ok _ _ w w1 s Hrem)).
    rewrite (bind_ok _ _ w1 w' st Hrun).
    eexists _, w'. split; [reflexivity|]. rewrite !fmap_cons, Hdom, Hsince.
    repeat split; try assumption. rewrite Hticks. simpl. lia.
Qed.

(** X5. [get_status] never raises and lists every row of the table, in the
    order of the table, with the row's domain and the formatted time stamp;
    it leaves the table, the terminal and the archive alone, and reads the
    clock once per row. *)
Theorem get_status_lists_every_row (w : world) :
  exists status w',
    Cache.get_status E w = (Ok status, w')
    /\ Cache.st_domain <$> status = row_domain <$> db w
    /\ Cache.st_cached_since <$> status
       = (fun r => strftime_local E (row_timestamp r)) <$> db w
    /\ db w' = db w
    /\ ticks w' = (ticks w + List.length (db w))%nat
    /\ console w' = console w
    /\ requests w' = requests w.
Proof.
  destruct (status_of_rows (db w) w)
    as (status & w' & Hrun & Hdom & Hsince & Hdb & Hticks & Hcon & Hreq).
  exists status, w'. split.
  - unfold Cache.get_status. now rewrite (bind_ok read_db _ w w (db w) eq_refl).
  - repeat split; assumption.
Qed.

End TimeRemaining.

(** X8. The sanity check of the fetch loop,
    [netloc.endswith(domain) or netloc == domain], holds exactly when the
    network location ends with the characters of the domain; for the empty
    domain it holds of every network location. *)
Theorem belongs_to_iff_suffix (netloc domain : string) :
  (Fetcher.belongs_to netloc domain = true <-> exists p, netloc = p ++ domain)
  /\ Fetcher.belongs_to netloc "" = true.
Proof.
  assert (Hiff : forall d, Fetcher.belongs_to netloc d = true <-> exists p, netloc = p ++ d).
  { intros d. unfold Fetcher.belongs_to. rewrite orb_true_iff. split.
    - intros [H|H]; [now apply endswith_inv|].
      apply String.eqb_eq in H. exists "". now subst.
    - intros [p ->]. left. apply endswith_app. }
  split; [apply Hiff|]. apply Hiff. exists netloc. now rewrite str_app_nil_r.
Qed.

Section FetcherMore.

Variable E : env.

Lemma accepted_from_row (domain : string) (rows : list pyval) (url : string) :
  url ∈ Fetcher.accepted_before_failure E domain rows ->
  exists row, row ∈ rows /\ Fetcher.row_accepts E domain row = Ok (Some url).
Proof.
  induction rows as [|row rows IH]; simpl; [intros H; now apply elem_of_nil in H|].
  destruct (Fetcher.row_accepts E domain row) as [[u|]|e] eqn:Hrow.
  - intros H. apply elem_of_cons in H as [->|H].
    + exists row. split; [apply list_elem_of_here | exact Hrow].
    + destruct (IH H) as (row' & Hin & Hacc). exists row'.
      split; [now apply list_elem_of_further | exact Hacc].
  - intros H. destruct (IH H) as (row' & Hin & Hacc). exists row'.
    split; [now apply list_elem_of_further | exact Hacc].
  - intros H. now apply elem_of_nil in H.
Qed.

Lemma accepted_when_no_failure (domain : string) (rows : list pyval) (url : string) :
  (forall row, row ∈ rows -> exists x, Fetcher.row_accepts E domain row = Ok x) ->
  (exists row, row ∈ rows /\ Fetcher.row_accepts E domain row = Ok (Some url)) ->
  url ∈ Fetcher.accepted_before_failure E domain rows.
Proof.
  induction rows as [|row rows IH]; intros Hok (row' & Hin & Hacc).
  - now apply elem_of_nil in Hin.
  - simpl. destruct (Hok row (list_elem_of_here _ _)) as [x Hx]. rewrite Hx.
    assert (Hrest : forall r, r ∈ rows -> exists x, Fetcher.row_accepts E domain r = Ok x)
      by (intros r Hr; apply Hok; now apply list_elem_of_further).
    apply elem_of_cons in Hin as [->|Hin].
    + rewrite Hacc in Hx. injection Hx as <-. apply list_elem_of_here.
    + destruct x as [u|].
      * apply list_elem_of_further. apply IH; [exact Hrest | now exists row'].
      * apply IH; [exact Hrest | now exists row'].
Qed.

Lemma row_accepts_Some (domain : string) (row : pyval) (url : string) :
  Fetcher.row_accepts E domain row = Ok (Some url) ->
  py_getitem0 row = Ok (PyStr url)
  /\ exists netloc, urlparse_netloc E url = Ok netloc
                    /\ Fetcher.belongs_to netloc domain = true.
Proof.
  unfold Fetcher.row_accepts.
  destruct (py_getitem0 row) as [[| | |s| |]|]; try discriminate.
  destruct (urlparse_netloc E s) as [netloc|] eqn:Hn; [|discriminate].
  destruct (Fetcher.belongs_to netloc domain) eqn:Hb; [|discriminate].
  intros H. injection H as <-. split; [reflexivity|]. now exists netloc.
Qed.

Lemma run_block_accepted (domain : string) (r : http_result) :
  exists rows,
    (Fetcher.run_block E domain r).1
    = list_to_set (Fetcher.accepted_before_failure E domain rows).
Proof.
  unfold Fetcher.run_block.
  destruct r as [e|status_code [data|e]]; try (exists []; reflexivity);
    destruct (Fetcher.raise_for_status status_code); try (exists []; reflexivity).
  destruct (negb (py_truthy data)); [exists []; reflexivity|].
  destruct (py_len data) as [n|]; [|exists []; reflexivity].
  destruct (n <=? 1); [exists []; reflexivity|].
  destruct (py_iter_from1 data) as [rows|]; [|exists []; reflexivity].
  exists rows. pose proof (process_rows_urls E domain rows ∅) as H.
  destruct (Fetcher.process_rows E domain rows ∅) as [urls failure].
  simpl in H |- *. now rewrite H, (left_id_L ∅ (∪)).
Qed.

(** X11. Whatever the archive answers, the network location of every URL
    the fetch returns ends with the characters of the domain; and when the
    answer is a list, every returned URL is the first item of one of the rows
    after the header row. *)
Theorem fetch_results_end_with_domain (domain : string) (w : world) (url : string) :
  forall urls w',
    Fetcher.fetch_wayback_urls E domain w = (Ok urls, w') ->
    url ∈ urls ->
    (exists netloc p, urlparse_netloc E url = Ok netloc /\ netloc = p ++ domain)
    /\ (forall status_code header rows,
          cdx_server E (Fetcher.query_url domain)
          = Response status_code (Ok (PyList (header :: rows))) ->
          exists row, row ∈ rows /\ py_getitem0 row = Ok (PyStr url)).
Proof.
  intros urls w' Hfetch Hin.
  destruct (fetch_returns_block E domain w) as (w'' & Hret & _).
  rewrite Hret in Hfetch. injection Hfetch as <- _.
  split.
  - destruct (run_block_accepted domain (cdx_server E (Fetcher.query_url domain)))
      as (rows & Hrows).
    rewrite Hrows in Hin. apply elem_of_list_to_set in Hin.
    now apply (accepted_netloc_suffix E domain rows).
  - intros status_code header rows Hans. rewrite Hans in Hin.
    assert (Hs : 200 <= status_code <= 299).
    { destruct (Z_le_dec 200 status_code) as [H1|H1];
        [destruct (Z_le_dec status_code 299) as [H2|H2]; [lia|] |];
        rewrite run_block_not_success in Hin by lia;
        now apply not_elem_of_empty in Hin. }
    rewrite (run_block_rows E domain status_code header rows Hs) in Hin.
    apply elem_of_list_to_set, accepted_from_row in Hin as (row & Hrow & Hacc).
    exists row. split; [exact Hrow|]. now apply row_accepts_Some in Hacc.
Qed.

Lemma process_rows_no_failure (domain : string) (rows : list pyval) :
  (forall row, row ∈ rows -> exists x, Fetcher.row_accepts E domain row = Ok x) ->
  forall urls, (Fetcher.process_rows E domain rows urls).2 = None.
Proof.
  induction rows as [|row rows IH]; intros Hok urls; [reflexivity|].
  simpl. destruct (Hok row (list_elem_of_here _ _)) as [x ->].
  assert (Hrest : forall r, r ∈ rows -> exists x, Fetcher.row_accepts E domain r = Ok x)
    by (intros r Hr; apply Hok; now apply list_elem_of_further).
  destruct x; now apply IH.
Qed.

(** The line the handlers print, by the way the [try] block ends. *)
Lemma fetch_console (domain : string) (w : world) :
  console (Fetcher.fetch_wayback_urls E domain w).2
  = (console w
     ++ match (Fetcher.run_block E domain (cdx_server E (Fetcher.query_url domain))).2 with
        | Fetcher.Raised ConnectError => [FetchConnectionFailed domain]
        | Fetcher.Raised (HTTPStatusError status_code) =>
            [FetchHTTPError status_code domain]
        | Fetcher.Raised e => [FetchUnexpected e]
        | Fetcher.Returned | Fetcher.FellThrough => []
        end)%list.
Proof.
  unfold Fetcher.fetch_wayback_urls, Fetcher.try_block, bind, http_get, ret. simpl.
  destruct (Fetcher.run_block E domain _) as [urls [| |e]]; simpl;
    [now rewrite app_nil_r ..|].
  destruct e; reflexivity.
Qed.

Lemma run_block_rows_end (domain : string) (status_code : Z) (header : pyval)
      (rows : list pyval) :
  200 <= status_code <= 299 ->
  (forall row, row ∈ rows -> exists x, Fetcher.row_accepts E domain row = Ok x) ->
  (Fetcher.run_block E domain (Response status_code (Ok (PyList (header :: rows))))).2
  = match rows with [] => Fetcher.Returned | _ => Fetcher.FellThrough end.
Proof.
  intros Hs Hok. unfold Fetcher.run_block, Fetcher.raise_for_status.
  replace ((200 <=? status_code) && (status_code <=? 299)) with true
    by (symmetry; apply andb_true_iff; split; apply Z.leb_le; lia).
  destruct rows as [|row rows]; [reflexivity|].
  cbn [py_truthy negb py_len py_iter_from1 List.tl].
  replace (Z.of_nat (List.length (header :: row :: rows)) <=? 1) with false
    by (symmetry; apply Z.leb_gt; simpl List.length; lia).
  pose proof (process_rows_no_failure domain (row :: rows) Hok ∅) as H.
  destruct (Fetcher.process_rows E domain (row :: rows) ∅) as [urls failure].
  simpl in H |- *. now rewrite H.
Qed.

(** X9. A fetch never raises; it sends exactly one query, whose [url]
    parameter is [.domain/]; it leaves the table and the clock alone. *)
Theorem fetch_sends_one_query (domain : string) (w : world) :
  exists urls w',
    Fetcher.fetch_wayback_urls E domain w = (Ok urls, w')
    /\ requests w' = (requests w ++ [("." ++ domain ++ "/")%string])%list
    /\ db w' = db w
    /\ ticks w' = ticks w.
Proof.
  destruct (fetch_returns_block E domain w) as (w' & Hfetch & Hdb & Hticks & Hreq).
  eexists _, w'. split; [exact Hfetch|]. split; [exact Hreq|].
  split; [exact Hdb | exact Hticks].
Qed.

(** X10. The failures that come before the loop over the rows is reached,
    each with the one message the code prints for it, after what the console
    held: a connection failure is reported with the domain; a status that is
    not 2xx with its code; any other exception, raised by the request or,
    under a 2xx status, by the decoding of the body, as an unexpected
    error. *)
Theorem fetch_reports_failures (domain : string) (w : world) :
  let answer := cdx_server E (Fetcher.query_url domain) in
  let w' := (Fetcher.fetch_wayback_urls E domain w).2 in
  (answer = RequestFails ConnectError ->
   console w' = (console w ++ [FetchConnectionFailed domain])%list)
  /\ (forall status_code body,
        answer = Response status_code body ->
        ~ (200 <= status_code <= 299) ->
        console w' = (console w ++ [FetchHTTPError status_code domain])%list)
  /\ (forall e,
        (answer = RequestFails e
         \/ exists status_code,
              200 <= status_code <= 299 /\ answer = Response status_code (Raise e)) ->
        e <> ConnectError ->
        (forall status_code, e <> HTTPStatusError status_code) ->
        console w' = (console w ++ [FetchUnexpected e])%list).
Proof.
  intros answer w'. subst answer w'. rewrite fetch_console. split; [|split].
  - intros ->. reflexivity.
  - intros status_code body -> Hs. unfold Fetcher.run_block, Fetcher.raise_for_status.
    destruct ((200 <=? status_code) && (status_code <=? 299)) eqn:Hb; [|reflexivity].
    apply andb_true_iff in Hb as [H1 H2]. apply Z.leb_le in H1, H2. lia.
  - intros e Hans Hc Hh.
    assert (Hend : (Fetcher.run_block E domain
                      (cdx_server E (Fetcher.query_url domain))).2
                   = Fetcher.Raised e).
    { destruct Hans as [->|(status_code & Hs & ->)]; [reflexivity|].
      unfold Fetcher.run_block, Fetcher.raise_for_status.
      replace ((200 <=? status_code) && (status_code <=? 299)) with true
        by (symmetry; apply andb_true_iff; split; apply Z.leb_le; lia).
      reflexivity. }
    rewrite Hend. destruct e; try reflexivity.
    + contradiction.
    + now contradiction (Hh status_code).
Qed.

(** X12. When the answer is a 2xx list and no row makes the loop raise,
    every row that holds a URL whose network location is the domain itself, or
    ends with a dot followed by the domain, has its URL in the result. *)
Theorem fetch_keeps_every_subdomain_url
        (domain : string) (w : world) (status_code : Z) (header : pyval)
        (rows : list pyval) :
  cdx_server E (Fetcher.query_url domain)
  = Response status_code (Ok (PyList (header :: rows))) ->
  200 <= status_code <= 299 ->
  (forall row, row ∈ rows -> exists x, Fetcher.row_accepts E domain row = Ok x) ->
  forall url netloc,
    PyList [PyStr url] ∈ rows ->
    urlparse_netloc E url = Ok netloc ->
    (netloc = domain \/ exists p, netloc = p ++ "." ++ domain) ->
    exists urls w',
      Fetcher.fetch_wayback_urls E domain w = (Ok urls, w') /\ url ∈ urls.
Proof.
  intros Hans Hs Hok url netloc Hrow Hnet Hsub.
  destruct (fetch_returns_block E domain w) as (w' & Hfetch & _).
  eexists _, w'. split; [exact Hfetch|].
  rewrite Hans, (run_block_rows E domain status_code header rows Hs).
  apply elem_of_list_to_set, accepted_when_no_failure; [exact Hok|].
  exists (PyList [PyStr url]). split; [exact Hrow|].
  unfold Fetcher.row_accepts. cbn [py_getitem0]. rewrite Hnet.
  replace (Fetcher.belongs_to netloc domain) with true; [reflexivity|].
  symmetry. unfold Fetcher.belongs_to. apply orb_true_iff.
  destruct Hsub as [->|[p ->]].
  - right. apply String.eqb_refl.
  - left. rewrite <- str_app_assoc. apply endswith_app.
Qed.

End FetcherMore.

Section RetryMore.

Context {St T : Type}.
Variables (max_retries delay : Z) (exceptions : exn -> bool).
Variable func : St -> result T * St.

Abbreviation attempts' := (Decorators.attempts max_retries delay exceptions func).
Abbreviation outcome_at' := (Decorators.outcome_at func).
Abbreviation state_after' := (Decorators.state_after func).
Abbreviation retried_at' := (Decorators.retried_at exceptions func).


(** A run of the loop with turns left ends on some call [k]: the calls before
    it were retried failures, and its outcome is the outcome of the run. *)
Lemma attempts_end_on_a_call (fuel : nat) :
  forall (attempt : Z) (s : Decorators.run_state),
    (0 < fuel)%nat ->
    attempt + Z.of_nat fuel = max_retries ->
    exists k,
      (k < fuel)%nat
      /\ (forall j, (j < k)%nat -> retried_at' j (Decorators.op_state s))
      /\ (attempts' fuel attempt s).1 = passed_on (outcome_at' k (Decorators.op_state s))
      /\ Decorators.calls (attempts' fuel attempt s).2 = (Decorators.calls s + S k)%nat
      /\ Decorators.total_sleep (Decorators.trace (attempts' fuel attempt s).2)
         = Decorators.total_sleep (Decorators.trace s) + Z.of_nat k * delay
      /\ ((S k < fuel)%nat -> ~ retried_at' k (Decorators.op_state s)).
Proof.
  induction fuel as [|fuel IH]; intros attempt s Hpos Hsum; [lia|].
  cbn [Decorators.attempts]. unfold Decorators.call_func.
  destruct (func (Decorators.op_state s)) as [r st1] eqn:Hcall.
  assert (Hout0 : outcome_at' 0 (Decorators.op_state s) = r)
    by (unfold Decorators.outcome_at; simpl; now rewrite Hcall).
  destruct r as [v|e].
  - exists 0%nat. simpl. rewrite Hout0.
    repeat split; try lia. intros _ (e' & He' & _). rewrite Hout0 in He'. discriminate.
  - destruct (exceptions e) eqn:Hexc.
    + destruct (attempt <? max_retries - 1) eqn:Hlt.
      * apply Z.ltb_lt in Hlt.
        set (s1 := Decorators.emit (Decorators.Slept delay)
                     (Decorators.emit (Decorators.Warned attempt e)
                        {| Decorators.op_state := st1;
                           Decorators.calls := S (Decorators.calls s);
                           Decorators.trace := Decorators.trace s |})).
        destruct (IH (attempt + 1) s1 ltac:(lia) ltac:(lia))
          as (k & Hk & Hretry & Hres & Hcalls & Hsleep & Hlast).
        assert (Hshift : forall j, outcome_at' j (Decorators.op_state s1)
                                   = outcome_at' (S j) (Decorators.op_state s)).
        { intros j. unfold Decorators.outcome_at. simpl. now rewrite Hcall. }
        exists (S k). split; [lia|]. split; [|split; [|split; [|split]]].
        -- intros [|j] Hj.
           ++ exists e. now split.
           ++ destruct (Hretry j ltac:(lia)) as (e' & He' & Hexc').
              exists e'. split; [|exact Hexc']. now rewrite <- Hshift.
        -- now rewrite Hres, Hshift.
        -- rewrite Hcalls. simpl. lia.
        -- rewrite Hsleep. simpl Decorators.trace. rewrite !total_sleep_app. simpl. lia.
        -- intros HSk (e' & He' & Hexc'). apply Hlast; [lia|].
           exists e'. split; [|exact Hexc']. now rewrite Hshift.
      * apply Z.ltb_ge in Hlt. exists 0%nat. simpl. rewrite Hout0.
        repeat split; try lia. rewrite total_sleep_app. simpl. lia.
    + exists 0%nat. simpl. rewrite Hout0.
      repeat split; try lia. intros _ (e' & He' & Hexc'). rewrite Hout0 in He'.
      injection He' as <-. congruence.
Qed.

End RetryMore.

(** X13. With a budget of at least one attempt, the wrapper makes between
    one and N calls, and what it returns or raises is what its last call
    returned or raised; every call before the last failed with a retried
    class, and was followed by one sleep of the delay. *)
Theorem retry_result_is_last_call {St T : Type}
        (max_retries delay : option Z) (exceptions : option (exn -> bool))
        (func : St -> result T * St) (s : Decorators.run_state) :
  let N := default Decorators.default_max_retries max_retries in
  let d := default Decorators.default_delay delay in
  let kinds := default Decorators.default_exceptions exceptions in
  let st := Decorators.op_state s in
  let run := Decorators.retry_on_failure max_retries delay exceptions func s in
  0 < N ->
  exists k,
    (k < Z.to_nat N)%nat
    /\ Decorators.calls run.2 = (Decorators.calls s + S k)%nat
    /\ run.1 = passed_on (Decorators.outcome_at func k st)
    /\ (forall j, (j < k)%nat -> Decorators.retried_at kinds func j st)
    /\ Decorators.total_sleep (Decorators.trace run.2)
       = Decorators.total_sleep (Decorators.trace s) + Z.of_nat k * d.
Proof.
  intros N d kinds st run Hpos.
  destruct (attempts_end_on_a_call N d kinds func (Z.to_nat N) 0 s ltac:(lia) ltac:(lia))
    as (k & Hk & Hretry & Hres & Hcalls & Hsleep & _).
  exists k. repeat split; assumption.
Qed.

(** X14. The wrapper reaches the [return None] after its loop exactly when
    the budget is zero or negative, and then the operation is not called at
    all; with a positive budget the operation is called at least once. *)
Theorem retry_returns_none_iff_no_budget {St T : Type}
        (max_retries delay : option Z) (exceptions : option (exn -> bool))
        (func : St -> result T * St) (s : Decorators.run_state) :
  let N := default Decorators.default_max_retries max_retries in
  let run := Decorators.retry_on_failure max_retries delay exceptions func s in
  (run.1 = Ok None <-> N <= 0)
  /\ (N <= 0 -> run = (Ok None, s))
  /\ (0 < N -> (Decorators.calls s < Decorators.calls run.2)%nat).
Proof.
  intros N run.
  assert (Hzero : N <= 0 -> run = (Ok None, s)).
  { intros HN. subst run. unfold Decorators.retry_on_failure, Decorators.wrapper.
    fold N. replace (Z.to_nat N) with 0%nat by lia. reflexivity. }
  assert (Hpos : 0 < N -> run.1 <> Ok None
                          /\ (Decorators.calls s < Decorators.calls run.2)%nat).
  { intros HN.
    destruct (attempts_end_on_a_call
                N (default Decorators.default_delay delay)
                (default Decorators.default_exceptions exceptions)
                func (Z.to_nat N) 0 s ltac:(lia) ltac:(lia))
      as (k & _ & _ & Hres & Hcalls & _).
    change (run.1 = passed_on
                      (Decorators.outcome_at func k (Decorators.op_state s))) in Hres.
    change (Decorators.calls run.2 = (Decorators.calls s + S k)%nat) in Hcalls.
    split; [|lia].
    rewrite Hres. unfold passed_on. now destruct (Decorators.outcome_at func k _). }
  split; [|split].
  - split.
    + intros Hnone. destruct (Z_le_gt_dec N 0) as [H|H]; [exact H|].
      destruct (Hpos ltac:(lia)) as [Hne _]. contradiction.
    + intros HN. now rewrite (Hzero HN).
  - exact Hzero.
  - intros HN. now apply Hpos.
Qed.

(** ** The normalisation of the domain argument *)

Lemma lower_char_idem (c : ascii) : Str.lower_char (Str.lower_char c) = Str.lower_char c.
Proof. destruct c as [[] [] [] [] [] [] [] []]; reflexivity. Qed.

Lemma is_space_lower_char (c : ascii) : Str.is_space (Str.lower_char c) = Str.is_space c.
Proof. destruct c as [[] [] [] [] [] [] [] []]; reflexivity. Qed.

Lemma lower_idem (s : string) : Str.lower (Str.lower s) = Str.lower s.
Proof.
  induction s as [|c s IH]; [reflexivity|].
  cbn [Str.lower]. now rewrite lower_char_idem, IH.
Qed.

Lemma lower_app (a b : string) : Str.lower (a ++ b) = Str.lower a ++ Str.lower b.
Proof.
  induction a as [|c a IH]; [reflexivity|].
  rewrite str_app_cons. cbn [Str.lower]. now rewrite IH, str_app_cons.
Qed.


Lemma lowered_cons (c : ascii) (s : string) :
  lowered (String c s) <-> Str.lower_char c = c /\ lowered s.
Proof.
  unfold lowered. cbn [Str.lower]. split.
  - intros H. injection H as Hc Hs. now split.
  - intros [-> ->]. reflexivity.
Qed.

Lemma lowered_lstrip (s : string) : lowered s -> lowered (Str.lstrip s).
Proof.
  induction s as [|c s IH]; [trivial|].
  intros H. cbn [Str.lstrip]. destruct (Str.is_space c); [|exact H].
  apply IH. now apply lowered_cons in H.
Qed.

Lemma lowered_rstrip (s : string) : lowered s -> lowered (Str.rstrip s).
Proof.
  induction s as [|c s IH]; [trivial|].
  intros H. apply lowered_cons in H as [Hc Hs]. specialize (IH Hs).
  cbn [Str.rstrip]. destruct (Str.rstrip s) as [|c' r].
  - destruct (Str.is_space c); [reflexivity|]. now apply lowered_cons.
  - now apply lowered_cons.
Qed.

Lemma lowered_remove (old : string) (s : string) :
  lowered s -> forall skip, lowered (Str.replace_from old "" skip s).
Proof.
  induction s as [|c s IH]; [trivial|].
  intros H skip. apply lowered_cons in H as [Hc Hs]. specialize (IH Hs).
  cbn [Str.replace_from]. destruct skip as [|k]; [|apply IH].
  destruct (String.prefix old (String c s)).
  - rewrite str_app_nil_l. apply IH.
  - apply lowered_cons. split; [exact Hc | apply IH].
Qed.

Lemma rstrip_cons_nonspace (c : ascii) (s : string) :
  Str.is_space c = false -> Str.rstrip (String c s) = String c (Str.rstrip s).
Proof.
  intros Hc. cbn [Str.rstrip]. rewrite Hc. now destruct (Str.rstrip s).
Qed.

Lemma remove_http_prefix (s : string) :
  Str.replace "http://" "" ("http://" ++ s) = Str.replace "http://" "" s.
Proof.
  unfold Str.replace. rewrite !str_app_cons, str_app_nil_l.
  simpl. replace (String.prefix "" s) with true by (now destruct s).
  now rewrite ?str_app_nil_l.
Qed.

Lemma remove_https_prefix (s : string) :
  Str.replace "https://" "" ("https://" ++ s) = Str.replace "https://" "" s.
Proof.
  unfold Str.replace. rewrite !str_app_cons, str_app_nil_l.
  simpl. replace (String.prefix "" s) with true by (now destruct s).
  now rewrite ?str_app_nil_l.
Qed.

Lemma keep_https_prefix (s : string) :
  Str.replace "http://" "" ("https://" ++ s) = "https://" ++ Str.replace "http://" "" s.
Proof.
  unfold Str.replace. rewrite !str_app_cons, !str_app_nil_l.
  simpl. now rewrite ?str_app_nil_l.
Qed.

(** X15. The cache key of a scan does not depend on the case of the
    argument, and holds no upper-case letter. *)
Theorem normalize_ignores_case (domain : string) :
  Cli.normalize (Str.lower domain) = Cli.normalize domain
  /\ Str.lower (Cli.normalize domain) = Cli.normalize domain.
Proof.
  unfold Cli.normalize. split; [now rewrite lower_idem|].
  apply lowered_remove, lowered_remove, lowered_rstrip, lowered_lstrip, lower_idem.
Qed.

Lemma lstrip_lower (s : string) : Str.lstrip (Str.lower s) = Str.lower (Str.lstrip s).
Proof.
  induction s as [|c s IH]; [reflexivity|].
  cbn [Str.lower Str.lstrip]. rewrite is_space_lower_char.
  destruct (Str.is_space c); [exact IH | reflexivity].
Qed.

Lemma strip_http (s : string) : Str.strip ("http://" ++ s) = "http://" ++ Str.rstrip s.
Proof.
  unfold Str.strip. rewrite !str_app_cons, str_app_nil_l. cbn [Str.lstrip].
  change (Str.is_space "h") with false. cbv iota.
  now rewrite !rstrip_cons_nonspace by reflexivity.
Qed.

Lemma strip_https (s : string) : Str.strip ("https://" ++ s) = "https://" ++ Str.rstrip s.
Proof.
  unfold Str.strip. rewrite !str_app_cons, str_app_nil_l. cbn [Str.lstrip].
  change (Str.is_space "h") with false. cbv iota.
  now rewrite !rstrip_cons_nonspace by reflexivity.
Qed.

(** X16. For an argument of ASCII characters without leading white space,
    a leading [http://], [https://] or [HTTPS://] makes no difference to the
    cache key. *)
Theorem normalize_drops_scheme (domain : string) :
  ascii_text domain = true ->
  Str.lstrip domain = domain ->
  Cli.normalize ("http://" ++ domain) = Cli.normalize domain
  /\ Cli.normalize ("https://" ++ domain) = Cli.normalize domain
  /\ Cli.normalize ("HTTPS://" ++ domain) = Cli.normalize domain.
Proof.
  intros _ Hlead.
  assert (Hstrip : Str.strip (Str.lower domain) = Str.rstrip (Str.lower domain)).
  { unfold Str.strip. now rewrite lstrip_lower, Hlead. }
  unfold Cli.normalize. rewrite !lower_app, Hstrip.
  change (Str.lower "http://") with "http://".
  change (Str.lower "https://") with "https://".
  change (Str.lower "HTTPS://") with "https://".
  rewrite strip_http, strip_https, remove_http_prefix, keep_https_prefix.
  now rewrite remove_https_prefix.
Qed.




Section ScanMore.

Variable E : env.




(** The value the loader returns does not depend on the state it runs in. *)
Lemma load_builtin_value (w w0 : world) :
  (Cli._load_builtin_params E w).1 = (Cli._load_builtin_params E w0).1.
Proof.
  unfold Cli._load_builtin_params, try_except, Cli.json_load.
  destruct (builtin_file E) as [|e| |text].
  - reflexivity.
  - destruct e; reflexivity.
  - reflexivity.
  - destruct (json_loads E text); reflexivity.
Qed.


End ScanMore.

Section CommandsFacts.

Variable E : env.

(** X23. [cache clear] without a domain, or with the empty string as
    domain, removes every row and reports their number; afterwards every
    [get] returns [None]. *)
Theorem cache_clear_without_domain_empties (domain : option string) (w : world) :
  domain = None \/ domain = Some "" ->
  exists w',
    CacheCommands.cache_clear domain w
    = (Ok [CacheCommands.AllCleared (Z.of_nat (List.length (db w)))], w')
    /\ db w' = []
    /\ forall d, Cache.get E d w' = (Ok PyNone, w').
Proof.
  intros Hdom.
  assert (Hrun : CacheCommands.cache_clear domain w
                 = (Ok [CacheCommands.AllCleared (Z.of_nat (List.length (db w)))],
                    (Cache.clear_all w).2))
    by (destruct Hdom as [-> | ->]; reflexivity).
  exists (Cache.clear_all w).2. split; [exact Hrun|]. split; [reflexivity|].
  intros d. now apply get_missing.
Qed.

(** X24. [cache clear d] for a non-empty [d] reports the entry as cleared
    whether or not it existed, removes the row of [d] and no other; the
    argument is not normalized, so the entry a scan stored under the
    normalized name stays when the two differ. *)
Theorem cache_clear_one_domain (d : string) (w : world) :
  d <> "" ->
  exists w',
    CacheCommands.cache_clear (Some d) w = (Ok [CacheCommands.EntryCleared d], w')
    /\ Cache.select_by_domain d (db w') = None
    /\ (forall d', d' <> d ->
          Cache.select_by_domain d' (db w') = Cache.select_by_domain d' (db w))
    /\ (Cli.normalize d <> d ->
        Cache.select_by_domain (Cli.normalize d) (db w')
        = Cache.select_by_domain (Cli.normalize d) (db w)).
Proof.
  intros Hd. exists (Cache.delete d w).2. split.
  - unfold CacheCommands.cache_clear.
    replace (String.eqb d "") with false by (symmetry; now apply String.eqb_neq).
    reflexivity.
  - split; [apply select_delete_by_domain|].
    split; intros; now apply select_delete_other.
Qed.

(** X25. [cache status] leaves the table as it is; it prints "Cache is
    empty." for an empty table, and otherwise a header with the number of
    rows followed by one line per row, in the order of the table. *)
Theorem cache_status_lists_the_table (w : world) :
  exists lines w',
    CacheCommands.cache_status E w = (Ok lines, w')
    /\ db w' = db w
    /\ (db w = [] -> lines = [CacheCommands.CacheIsEmpty])
    /\ (db w <> [] ->
        exists items,
          lines = CacheCommands.StatusHeader (List.length (db w)) :: items
          /\ CacheCommands.line_domain <$> items = Some <$> (row_domain <$> db w)).
Proof.
  destruct (status_of_rows E (db w) w)
    as (status & w' & Hrun & Hdom & _ & Hdb & _).
  assert (Hget : Cache.get_status E w = (Ok status, w')).
  { unfold Cache.get_status. now rewrite (bind_ok read_db _ w w (db w) eq_refl). }
  unfold CacheCommands.cache_status. rewrite (bind_ok _ _ _ _ _ Hget).
  assert (Hlen : List.length status = List.length (db w)).
  { apply (f_equal List.length) in Hdom. now rewrite !length_fmap in Hdom. }
  destruct status as [|item status].
  - exists [CacheCommands.CacheIsEmpty], w'. split; [reflexivity|].
    split; [exact Hdb|]. split; [reflexivity|].
    intros Hne. destruct (db w); [contradiction | discriminate].
  - eexists _, w'. split; [reflexivity|]. split; [exact Hdb|]. split.
    + intros Hnil. rewrite Hnil in Hlen. discriminate.
    + intros _. eexists. split; [now rewrite Hlen|].
      rewrite <- Hdom, <- !list_fmap_compose. reflexivity.
Qed.

End CommandsFacts.

Section ScanFacts2.

Variable E : env.






(** [json.loads] undoes [json.dumps] on lists of strings. *)
Hypothesis json_roundtrip :
  forall l : list string, json_loads E (json_dumps E l) = Some (py_strs l).




End ScanFacts2.

Section ScanFacts3.

Variable E : env.



End ScanFacts3.

(* ===================================================================== *)
(** * The further properties, on the reference environment *)
(* ===================================================================== *)

Lemma five_rows_key_ok : Cache.primary_key_ok five_rows.
Proof.
  unfold Cache.primary_key_ok. apply (bool_decide_unpack _). vm_compute. exact I.
Qed.

Lemma other_domains_untouched_witness :
  let w := world_with five_rows in
  Cache.select_by_domain "b.com" (db (Cache.get (offline_env 0) "a.com" w).2)
  = Cache.select_by_domain "b.com" (db w)
  /\ Cache.select_by_domain "b.com" (db (Cache.set (offline_env 0) "a.com" ["x"] w).2)
     = Cache.select_by_domain "b.com" (db w)
  /\ Cache.select_by_domain "b.com" (db (Cache.delete "a.com" w).2)
     = Cache.select_by_domain "b.com" (db w).
Proof.
  intros w.
  apply (other_domains_untouched (offline_env 0) "a.com" "b.com" ["x"] w).
  discriminate.
Defined.

Lemma set_row_count_witness :
  List.length (db (Cache.set (offline_env 0) "a.com" ["x"] (world_with five_rows)).2)
  = 5%nat
  /\ List.length (db (Cache.set (offline_env 0) "z.com" ["x"] (world_with five_rows)).2)
     = 6%nat.
Proof.
  split.
  - apply (set_row_count (offline_env 0) "a.com" ["x"] (world_with five_rows)).
    exact five_rows_key_ok.
  - apply (set_row_count (offline_env 0) "z.com" ["x"] (world_with five_rows)).
    exact five_rows_key_ok.
Defined.

Lemma time_remaining_rounds_down_witness :
  let E := offline_env 1700090000 in
  let rem := remaining 1700000000 1700090000 in
  exists days hours,
    0 <= days /\ 0 <= hours <= 23
    /\ (inject_Z (days * 86400 + hours * 3600) <= rem)%Q
    /\ (rem < inject_Z (days * 86400 + hours * 3600 + 3600))%Q
    /\ (Cache._time_remaining E 1700000000 empty_world).1
       = Ok (if 0 <? days
             then Cache.py_str_int days ++ " days, "
                  ++ Cache.py_str_int hours ++ " hours"
             else if 0 <? hours then Cache.py_str_int hours ++ " hours"
                  else "Less than 1 hour")
    /\ ((inject_Z 1700000000 <= 1700090000)%Q -> days <= 30).
Proof.
  intros E rem.
  apply (time_remaining_rounds_down E 1700000000 empty_world). reflexivity.
Defined.

Example time_remaining_ex :
  (Cache._time_remaining (offline_env 1700090000) 1700000000 empty_world).1
  = Ok "28 days, 23 hours".
Proof. vm_compute. reflexivity. Qed.

Example time_remaining_ex2 :
  (Cache._time_remaining (offline_env (1702592000 - (1 # 2))) 1700000000 empty_world).1
  = Ok "Less than 1 hour".
Proof. vm_compute. reflexivity. Qed.

Lemma set_then_get_margin_witness :
  let E := offline_env (1700000000 + (1 # 2)) in
  exists w2,
    Cache.get E "tesla.com" (Cache.set E "tesla.com" ["id"] empty_world).2
    = (Ok (py_strs ["id"]), w2).
Proof.
  intros E.
  destruct (set_then_get_margin E json_codec_roundtrip "tesla.com" ["id"] empty_world)
    as [Hfresh _].
  - vm_compute. discriminate.
  - destruct Hfresh as (w2 & Hget & _).
    + vm_compute. discriminate.
    + now exists w2.
Defined.

Lemma fetch_results_end_with_domain_witness :
  let E := example_env 0 in
  exists netloc p,
    urlparse_netloc E "https://api.example.com/b?zz=2" = Ok netloc
    /\ netloc = p ++ "example.com".
Proof.
  intros E.
  destruct (Fetcher.fetch_wayback_urls E "example.com" empty_world) as [r w'] eqn:Hrun.
  assert (Hr : exists urls, r = Ok urls /\ "https://api.example.com/b?zz=2" ∈ urls).
  { revert Hrun. vm_compute. intros H. injection H as <- _.
    eexists. split; [reflexivity|]. apply (bool_decide_unpack _). vm_compute. exact I. }
  destruct Hr as (urls & -> & Hin).
  now destruct (fetch_results_end_with_domain
                  E "example.com" empty_world _ urls w' Hrun Hin) as [H _].
Defined.

Lemma fetch_keeps_every_subdomain_url_witness :
  exists urls w',
    Fetcher.fetch_wayback_urls (example_env 0) "example.com" empty_world = (Ok urls, w')
    /\ "https://api.example.com/b?zz=2" ∈ urls.
Proof.
  apply (fetch_keeps_every_subdomain_url
           (example_env 0) "example.com" empty_world 200 cdx_header
           [cdx_row "https://example.com/a?id=1";
            cdx_row "https://api.example.com/b?zz=2"]
           eq_refl ltac:(lia)) with (netloc := "api.example.com").
  - intros row Hrow.
    apply elem_of_cons in Hrow as [->|Hrow]; [eexists; reflexivity|].
    apply elem_of_cons in Hrow as [->|Hrow]; [eexists; reflexivity|].
    now apply elem_of_nil in Hrow.
  - apply list_elem_of_further, list_elem_of_here.
  - reflexivity.
  - right. now exists "api".
Defined.

Lemma retry_result_is_last_call_witness :
  let run := Decorators.retry_on_failure None None None (flaky 1 TimeoutError) fresh_run in
  exists k,
    (k < 3)%nat
    /\ Decorators.calls run.2 = S k
    /\ run.1 = passed_on (Decorators.outcome_at (flaky 1 TimeoutError) k 0%nat)
    /\ (forall j, (j < k)%nat ->
          Decorators.retried_at Decorators.default_exceptions (flaky 1 TimeoutError) j 0%nat)
    /\ Decorators.total_sleep (Decorators.trace run.2) = 0 + Z.of_nat k * 2.
Proof.
  intros run.
  apply (retry_result_is_last_call None None None (flaky 1 TimeoutError) fresh_run).
  reflexivity.
Defined.

Lemma normalize_drops_scheme_witness :
  Cli.normalize ("http://" ++ "Tesla.com ") = Cli.normalize "Tesla.com "
  /\ Cli.normalize ("https://" ++ "Tesla.com ") = Cli.normalize "Tesla.com "
  /\ Cli.normalize ("HTTPS://" ++ "Tesla.com ") = Cli.normalize "Tesla.com ".
Proof. apply (normalize_drops_scheme "Tesla.com "); reflexivity. Defined.

(** The space after the scheme is stripped only when it leads the argument:
    [strip] runs before the scheme is removed. *)
Example normalize_inner_space :
  Cli.normalize "https:// example.com" = " example.com"
  /\ Cli.normalize " https://example.com" = "example.com".
Proof. split; reflexivity. Qed.

Lemma cache_clear_without_domain_empties_witness :
  exists w',
    CacheCommands.cache_clear (Some "") (world_with five_rows)
    = (Ok [CacheCommands.AllCleared 5], w')
    /\ db w' = []
    /\ forall d, Cache.get (offline_env 0) d w' = (Ok PyNone, w').
Proof.
  apply (cache_clear_without_domain_empties (offline_env 0) (Some "")
                                            (world_with five_rows)).
  now right.
Defined.

Lemma cache_clear_one_domain_witness :
  exists w',
    CacheCommands.cache_clear (Some "B.com") (world_with five_rows)
    = (Ok [CacheCommands.EntryCleared "B.com"], w')
    /\ Cache.select_by_domain "B.com" (db w') = None
    /\ (forall d', d' <> "B.com" ->
          Cache.select_by_domain d' (db w')
          = Cache.select_by_domain d' (db (world_with five_rows)))
    /\ (Cli.normalize "B.com" <> "B.com" ->
        Cache.select_by_domain (Cli.normalize "B.com") (db w')
        = Cache.select_by_domain (Cli.normalize "B.com") (db (world_with five_rows))).
Proof.
  apply (cache_clear_one_domain "B.com" (world_with five_rows)). discriminate.
Defined.

(** [cache clear B.com] leaves the entry that [scan B.com] wrote: the scan
    stored it under [b.com]. *)
Example cache_clear_is_case_sensitive :
  List.length (db (CacheCommands.cache_clear (Some "B.com") (world_with five_rows)).2)
  = 5%nat
  /\ List.length (db (CacheCommands.cache_clear (Some "b.com") (world_with five_rows)).2)
     = 4%nat.
Proof. split; reflexivity. Qed.




Example scan_hit_console :
  console (Cli.scan (offline_env 1700000100) "Example.com" false None
                    (world_with [cached_row ["q"; "id"]])).2
  = [CacheUsing "example.com" "29 days, 23 hours"; FinalListHeader 2;
     ParamLine (PyStr "q"); ParamLine (PyStr "id")].
Proof. vm_compute. reflexivity. Qed.



Example second_scan_console :
  let E := example_env 1700000100 in
  let w' := (Cli.scan E "example.com" false None empty_world).2 in
  (Cli.scan E "example.com" false (Some "json") w').2
  = {| db := db w'; ticks := 3;
       console := console w' ++ [CacheUsing "example.com" "30 days, 0 hours";
                                 JsonOutput "example.com" (py_strs ["id"])];
       requests := [".example.com/"] |}.
Proof. vm_compute. reflexivity. Qed.


Example failed_scan_table :
  db (Cli.scan stale_env "example.com" false None
               (world_with [cached_row ["q"]; tesla_row 1799999999])).2
  = [tesla_row 1799999999].
Proof. vm_compute. reflexivity. Qed.


